(** * AnalyticsMP: a shallow embedding of src/AnalyticsMP.js

    The library fills in the mandatory Measurement Protocol parameters of a
    hit, keeps a per-user client identifier in a property store, and renders
    a hit as a tracking URL.  The JavaScript is embedded as functions in a
    small state-and-exception monad over an explicit [world]: the object
    heap, the module-level cache [AnalyticsMP_.clientId], the global
    [ANALYTICS_TRACKING_ID], the property stores with a log of every access,
    and the number of calls made so far to the two platform sources of
    randomness.

    The repository also holds an older copy of the file.  Its last export
    names a function that the file does not declare, so loading it stops
    before the module state is set up and none of its functions can run;
    Module [Draft] keeps the one expression of it that can be compared with
    the published code, the item of the query string. *)

From Stdlib Require Import ZArith String Ascii List Lia.
From stdpp Require Import base option list gmap strings pretty.

Local Open Scope string_scope.
Local Open Scope Z_scope.

(** ** JavaScript values *)

(** The values a parameter can hold once it has gone through JSON: [null],
    a boolean, a number or a string.

    Numbers are the finite integer-valued ones (hit parameters such as [ev],
    [qt] or [z]).  [VNum n] is the Number written [n] in a program: the
    double nearest to [n], which is [n] itself up to [2^53].

    A string is kept as the bytes of its UTF-8 encoding.  A JavaScript
    string may hold a surrogate code unit that is not part of a pair; such a
    code unit has no UTF-8 encoding and is kept as the three bytes that the
    encoding scheme would give it ([ED A0 80] to [ED BF BF]), so a string
    has a lone surrogate exactly when its bytes are not well-formed UTF-8
    ([well_formed] below). *)
Inductive value : Type :=
  | VNull
  | VBool (b : bool)
  | VNum (n : Z)
  | VStr (s : string).

#[global] Instance value_eq_dec : EqDecision value.
Proof. solve_decision. Defined.

(** Truthiness of a string: every string but the empty one. *)
Definition str_truthy (s : string) : bool :=
  negb (String.eqb s "").

(** [ToBoolean]: what [!x], [x || y] and [if (x)] look at. *)
Definition ToBoolean (v : value) : bool :=
  match v with
  | VNull => false
  | VBool b => b
  | VNum n => negb (n =? 0)
  | VStr s => str_truthy s
  end.

(** The result of a property read [o[k]] is [None] for [undefined]. *)
Definition truthy (r : option value) : bool :=
  match r with
  | Some v => ToBoolean v
  | None => false
  end.

(** ** Objects

    An object is the list of its own properties in enumeration order (the
    order of [for (key in o)]).  The keys are Measurement Protocol parameter
    names, never array indices, so assigning to a new key appends it and
    assigning to an existing key keeps its place. *)
Definition object : Type := list (string * value).

Fixpoint obj_get (k : string) (o : object) : option value :=
  match o with
  | [] => None
  | (k', v) :: o' => if String.eqb k k' then Some v else obj_get k o'
  end.

Fixpoint obj_set (k : string) (v : value) (o : object) : object :=
  match o with
  | [] => [(k, v)]
  | (k', v') :: o' =>
      if String.eqb k k' then (k, v) :: o' else (k', v') :: obj_set k v o'
  end.



(** ** The world *)

Definition loc : Type := nat.

(** The property stores of [PropertiesService].  Their contents are kept in
    one finite map from a store and a key to the string held there. *)
Inductive store_ref : Type :=
  | UserProperties
  | ScriptProperties
  | DocumentProperties.

#[global] Instance store_ref_eq_dec : EqDecision store_ref.
Proof. solve_decision. Defined.

Definition store_ref_index (s : store_ref) : nat :=
  match s with
  | UserProperties => 0
  | ScriptProperties => 1
  | DocumentProperties => 2
  end.

Definition store_ref_of_index (n : nat) : store_ref :=
  match n with
  | O => UserProperties
  | S O => ScriptProperties
  | _ => DocumentProperties
  end.

#[global] Instance store_ref_countable : Countable store_ref.
Proof.
  apply (inj_countable' store_ref_index store_ref_of_index).
  intros s; destruct s; reflexivity.
Defined.

(** One entry of the access log per call to a store. *)
Inductive store_event : Type :=
  | GetProperty (s : store_ref) (k : string)
  | SetProperty (s : store_ref) (k v : string).

Definition is_write (e : store_event) : bool :=
  match e with
  | GetProperty _ _ => false
  | SetProperty _ _ _ => true
  end.

Definition store_writes (t : list store_event) : nat :=
  length (filter (fun e => is_write e = true) t).

Record world : Type := mkWorld {
  heap : gmap loc object;
  clientId : option string;
  ANALYTICS_TRACKING_ID : option value;
  stores : gmap (store_ref * string) string;
  trace : list store_event;
  uuid_calls : nat;
  random_calls : nat
}.

Definition with_heap (h : gmap loc object) (w : world) : world :=
  mkWorld h (clientId w) (ANALYTICS_TRACKING_ID w) (stores w) (trace w)
          (uuid_calls w) (random_calls w).

Definition with_clientId (c : option string) (w : world) : world :=
  mkWorld (heap w) c (ANALYTICS_TRACKING_ID w) (stores w) (trace w)
          (uuid_calls w) (random_calls w).

Definition with_store (st : gmap (store_ref * string) string)
    (t : list store_event) (w : world) : world :=
  mkWorld (heap w) (clientId w) (ANALYTICS_TRACKING_ID w) st t
          (uuid_calls w) (random_calls w).

Definition with_uuid_calls (n : nat) (w : world) : world :=
  mkWorld (heap w) (clientId w) (ANALYTICS_TRACKING_ID w) (stores w) (trace w)
          n (random_calls w).

Definition with_random_calls (n : nat) (w : world) : world :=
  mkWorld (heap w) (clientId w) (ANALYTICS_TRACKING_ID w) (stores w) (trace w)
          (uuid_calls w) n.

(** ** Exceptions and the monad *)

Inductive exn : Type :=
  | Error (message : string)
  | URIError.

Inductive outcome (A : Type) : Type :=
  | Return (a : A) (w : world)
  | Throw (e : exn) (w : world).

Arguments Return {A} a w.
Arguments Throw {A} e w.

Definition final {A : Type} (r : outcome A) : world :=
  match r with
  | Return _ w => w
  | Throw _ w => w
  end.

Definition M (A : Type) : Type := world -> outcome A.

Definition ret {A : Type} (a : A) : M A := fun w => Return a w.

Definition throw {A : Type} (e : exn) : M A := fun w => Throw e w.

Definition bind {A B : Type} (m : M A) (f : A -> M B) : M B :=
  fun w =>
    match m w with
    | Return a w' => f a w'
    | Throw e w' => Throw e w'
    end.

Declare Scope js_scope.
Delimit Scope js_scope with js.
Notation "'let!' x ':=' m 'in' k" := (bind m (fun x => k))
  (at level 10, x name, m at level 100, k at level 200) : js_scope.
Notation "'do!' m 'in' k" := (bind m (fun _ => k))
  (at level 10, m at level 100, k at level 200) : js_scope.

Local Open Scope js_scope.

(** *** The heap *)

(** The object behind a reference; a reference that was never allocated
    reads as the empty object. *)
Definition deref (p : loc) (w : world) : object := heap w !!! p.

(** [o[k]] *)
Definition prop_get (p : loc) (k : string) : M (option value) :=
  fun w => Return (obj_get k (deref p w)) w.

(** [o[k] = v] *)
Definition prop_set (p : loc) (k : string) (v : value) : M unit :=
  fun w => Return tt (with_heap (<[p := obj_set k v (deref p w)]> (heap w)) w).

(** [JSON.parse(JSON.stringify(o))]: a new object with the properties of
    [o], in the same order. *)
Definition JSON_clone (p : loc) : M loc :=
  fun w =>
    let q := fresh (dom (heap w)) in
    Return q (with_heap (<[q := deref p w]> (heap w)) w).

Definition read_object (p : loc) : M object :=
  fun w => Return (deref p w) w.

(** *** The property stores *)

Definition getProperty (s : store_ref) (k : string) : M (option string) :=
  fun w =>
    Return (stores w !! (s, k))
           (with_store (stores w) (trace w ++ [GetProperty s k]) w).

Definition setProperty (s : store_ref) (k v : string) : M unit :=
  fun w =>
    Return tt
      (with_store (<[(s, k) := v]> (stores w))
                  (trace w ++ [SetProperty s k v]) w).

(** *** Module state and globals *)

Definition read_clientId : M (option string) :=
  fun w => Return (clientId w) w.

Definition write_clientId (c : option string) : M unit :=
  fun w => Return tt (with_clientId c w).

Definition read_tracking_id : M (option value) :=
  fun w => Return (ANALYTICS_TRACKING_ID w) w.

(** ** Numbers: [Math.floor(Math.random() * 10E7)]

    A non-negative double is kept as the dyadic fraction [mant / 2^expo].
    Every double in [0, 1) has this form with a 53-bit [mant] and
    [53 <= expo <= 1074]. *)
Record double : Type := mkDouble { mant : Z; expo : Z }.

Definition unit_double (d : double) : Prop :=
  0 <= mant d < 2 ^ 53 /\ 53 <= expo d <= 1074.

(** Round a non-negative integer to 53 significant bits, to nearest, ties to
    even: the rounding of IEEE 754 binary64 arithmetic. *)
Definition round53 (n : Z) : Z :=
  if n <? 2 ^ 53 then n
  else
    let sh := Z.log2 n + 1 - 53 in
    let q := Z.shiftr n sh in
    let r := n - Z.shiftl q sh in
    let half := Z.shiftl 1 (sh - 1) in
    let q' := if (half <? r) || ((r =? half) && Z.odd q) then q + 1 else q in
    Z.shiftl q' sh.

(** The literal [10E7] is ten times ten to the seventh. *)
Definition ten_E7 : Z := 100000000.

(** [d * 10E7], the exact product rounded once. *)
Definition fmul_10E7 (d : double) : double :=
  mkDouble (round53 (mant d * ten_E7)) (expo d).

(** [Math.floor] *)
Definition Math_floor (d : double) : Z := Z.shiftr (mant d) (expo d).

(** ** [ToString]

    A Number is written with the fewest significant digits that still
    denote it: of the decimals [s * 10^e] whose nearest double is [x], the
    one with the shortest [s], and among these the one closest to [x] (the
    even [s] on a tie).  Up to [2^53] that is the integer itself. *)

(** The number of decimal digits of a positive integer. *)
Definition decimal_digits (n : Z) : Z := Z.of_nat (String.length (pretty n)).

(** The decimal for the double [x] of [nd] digits, trying [k], [k + 1], ...
    significant digits. *)
Fixpoint shortest_decimal (fuel : nat) (x nd k : Z) : Z :=
  match fuel with
  | O => x
  | S fuel' =>
      if nd <=? k then x
      else
        let p := 10 ^ (nd - k) in
        let lo := x / p * p in
        let hi := lo + p in
        match round53 lo =? x, round53 hi =? x with
        | true, true =>
            if x - lo <? hi - x then lo
            else if hi - x <? x - lo then hi
            else if Z.even (x / p) then lo else hi
        | true, false => lo
        | false, true => hi
        | false, false => shortest_decimal fuel' x nd (k + 1)
        end
  end.

(** A positive integer without its trailing zeros. *)
Fixpoint significand (fuel : nat) (c : Z) : Z :=
  match fuel with
  | O => c
  | S fuel' => if c mod 10 =? 0 then significand fuel' (c / 10) else c
  end.

(** [Number::toString]: all the digits below [10^21], and from there on one
    digit, the other significant digits after a point, and the exponent. *)
Definition Number_toString (n : Z) : string :=
  if n =? 0 then "0"
  else
    let x := round53 (Z.abs n) in
    let c := shortest_decimal 17 x (decimal_digits x) 1 in
    (if n <? 0 then "-" else "") +:+
    (if c <? 10 ^ 21 then pretty c
     else
       let e := decimal_digits c - 1 in
       match pretty (significand (Z.to_nat e) c) with
       | String d EmptyString => String d ("e+" +:+ pretty e)
       | String d digits => String d ("." +:+ digits +:+ "e+" +:+ pretty e)
       | EmptyString => ""
       end).

(** [ToString], as applied by [encodeURI] to its argument. *)
Definition ToString (v : value) : string :=
  match v with
  | VNull => "null"
  | VBool true => "true"
  | VBool false => "false"
  | VNum n => Number_toString n
  | VStr s => s
  end.

(** ** Strings: [encodeURI] and [Array.prototype.join] *)

Definition in_range (lo hi c : ascii) : bool :=
  ((N_of_ascii lo <=? N_of_ascii c) && (N_of_ascii c <=? N_of_ascii hi))%N.

Definition is_alnum (c : ascii) : bool :=
  in_range "a" "z" c || in_range "A" "Z" c || in_range "0" "9" c.

(** The characters [encodeURI] leaves alone: letters, digits, the URI
    reserved characters, the unreserved marks and the number sign. *)
Definition uri_unescaped (c : ascii) : bool :=
  is_alnum c
  || existsb (Ascii.eqb c) (list_ascii_of_string ";/?:@&=+$,-_.!~*'()#").

Definition hex_digit (n : N) : ascii :=
  (if n <? 10 then ascii_of_N (48 + n) else ascii_of_N (55 + n))%N.

(** A byte as [%XX], in upper-case hexadecimal. *)
Definition percent_byte (c : ascii) : string :=
  String "%" (String (hex_digit (N_of_ascii c / 16))
                     (String (hex_digit (N_of_ascii c mod 16)) "")).

(** The escaping that [encodeURI] performs: every byte of the UTF-8
    encoding but the characters above becomes [%XX]. *)
Fixpoint percent_encode (s : string) : string :=
  match s with
  | EmptyString => ""
  | String c s' =>
      (if uri_unescaped c then String c "" else percent_byte c)
      +:+ percent_encode s'
  end.

Definition byte_in (lo hi : N) (c : ascii) : bool :=
  ((lo <=? N_of_ascii c) && (N_of_ascii c <=? hi))%N.

Definition continuation (c : ascii) : bool := byte_in 128 191 c.

(** Well-formed UTF-8: one byte below [80]; or a lead byte [C2] to [F4]
    with its one, two or three continuation bytes, no encoding longer than
    needed, no surrogate ([ED A0] to [ED BF]) and nothing above
    [U+10FFFF]. *)
Fixpoint well_formed (s : string) : bool :=
  match s with
  | EmptyString => true
  | String c0 s1 =>
      if byte_in 0 127 c0 then well_formed s1
      else
        match s1 with
        | EmptyString => false
        | String c1 s2 =>
            if byte_in 194 223 c0 then continuation c1 && well_formed s2
            else
              match s2 with
              | EmptyString => false
              | String c2 s3 =>
                  if byte_in 224 239 c0 then
                    (if byte_in 224 224 c0 then byte_in 160 191 c1
                     else if byte_in 237 237 c0 then byte_in 128 159 c1
                     else continuation c1)
                    && continuation c2 && well_formed s3
                  else
                    match s3 with
                    | EmptyString => false
                    | String c3 s4 =>
                        byte_in 240 244 c0
                        && (if byte_in 240 240 c0 then byte_in 144 191 c1
                            else if byte_in 244 244 c0 then byte_in 128 143 c1
                            else continuation c1)
                        && continuation c2 && continuation c3
                        && well_formed s4
                    end
              end
        end
  end.

(** [encodeURI(s)]: a [URIError] on a string with a lone surrogate, the
    escaped string otherwise. *)
Definition encodeURI (s : string) : M string :=
  if well_formed s then ret (percent_encode s) else throw URIError.

Fixpoint join (sep : string) (l : list string) : string :=
  match l with
  | [] => ""
  | [x] => x
  | x :: l' => x +:+ sep +:+ join sep l'
  end.

(** ** The library *)

Definition ENDPOINT : string := "https://www.google-analytics.com/collect".

Definition TRACKING_ID_REQUIRED : string :=
  "A valid Google Analytics tracking ID is required".

(** [x || d] *)
Definition or_else (x : option value) (d : value) : value :=
  match x with
  | Some v => if ToBoolean v then v else d
  | None => d
  end.

(** [x === s] for a string literal [s] *)
Definition is_string (x : option value) (s : string) : bool :=
  match x with
  | Some (VStr s') => String.eqb s' s
  | _ => false
  end.

(** The cached or stored identifier when it is truthy. *)
Definition truthy_id (c : option string) : option string :=
  match c with
  | Some id => if str_truthy id then Some id else None
  | None => None
  end.

Section AnalyticsMP.

(** The platform's sources of randomness: the result of the [n]-th call to
    [Utilities.getUuid()] and to [Math.random()]. *)
Variable getUuid : nat -> string.
Variable random : nat -> double.

Definition Utilities_getUuid : M string :=
  fun w => Return (getUuid (uuid_calls w)) (with_uuid_calls (S (uuid_calls w)) w).

Definition Math_random : M double :=
  fun w =>
    Return (random (random_calls w)) (with_random_calls (S (random_calls w)) w).

(** The value of [Math.floor(Math.random() * 10E7)] for a call made in
    world [w]. *)
Definition drawn_z (w : world) : Z :=
  Math_floor (fmul_10E7 (random (random_calls w))).

(** [getAnalyticsClientId(optPropertyStore)] *)
Definition getAnalyticsClientId (optPropertyStore : option store_ref) : M string :=
  let! cached := read_clientId in
  match truthy_id cached with
  | Some id => ret id
  | None =>
      let store := default UserProperties optPropertyStore in
      let! stored := getProperty store "clientId" in
      do! write_clientId stored in
      match truthy_id stored with
      | Some id => ret id
      | None =>
          let! uuid := Utilities_getUuid in
          do! write_clientId (Some uuid) in
          do! setProperty store "clientId" uuid in
          ret uuid
      end
  end.

(** [AnalyticsMP_._addRequiredParameters(parameters, optPropertyStore,
    sentViaUrlFetch)] *)
Definition _addRequiredParameters (parameters : loc)
    (optPropertyStore : option store_ref) (sentViaUrlFetch : bool) : M loc :=
  let! params := JSON_clone parameters in
  let! tid := prop_get params "tid" in
  do! (if negb (truthy tid) then
         let! configured := read_tracking_id in
         match configured with
         | Some id =>
             if negb (ToBoolean id) then throw (Error TRACKING_ID_REQUIRED)
             else prop_set params "tid" id
         | None => throw (Error TRACKING_ID_REQUIRED)
         end
       else ret tt) in
  let! cid := getAnalyticsClientId optPropertyStore in
  do! prop_set params "cid" (VStr cid) in
  let! t := prop_get params "t" in
  do! prop_set params "t" (or_else t (VStr "event")) in
  let! t := prop_get params "t" in
  let! el := prop_get params "el" in
  do! (if is_string t "event" && negb (truthy el)
       then prop_set params "el" (VStr "")
       else ret tt) in
  do! prop_set params "v" (VStr "1") in
  let! r := Math_random in
  do! prop_set params "z" (VNum (Math_floor (fmul_10E7 r))) in
  do! (if sentViaUrlFetch then
         let! ds := prop_get params "ds" in
         do! prop_set params "ds" (or_else ds (VStr "urlFetch")) in
         prop_set params "aip" (VStr "1")
       else ret tt) in
  ret params.

(** [key + (params[key] === '' ? '' : '=' + encodeURI(params[key]))] *)
Definition url_item (key : string) (v : value) : M string :=
  if decide (v = VStr "") then ret (key +:+ "")
  else
    let! encoded := encodeURI (ToString v) in
    ret (key +:+ ("=" +:+ encoded)).

(** The value of that expression when [encodeURI] returns: one [key] or
    [key=value] item of the query string. *)
Definition url_param (key : string) (v : value) : string :=
  key +:+ (if decide (v = VStr "") then "" else "=" +:+ percent_encode (ToString v)).

(** [for (var key in params) urlParams.push(...)] *)
Fixpoint url_items (params : object) (urlParams : list string) : M (list string) :=
  match params with
  | [] => ret urlParams
  | (key, v) :: rest =>
      let! item := url_item key v in
      url_items rest (urlParams ++ [item])%list
  end.

(** [generateAnalyticsTrackingUrl(parameters, optPropertyStore)] *)
Definition generateAnalyticsTrackingUrl (parameters : loc)
    (optPropertyStore : option store_ref) : M string :=
  let! params := _addRequiredParameters parameters optPropertyStore false in
  let! o := read_object params in
  let! urlParams := url_items o [] in
  ret (ENDPOINT +:+ "?" +:+ join "&amp;" urlParams).

End AnalyticsMP.

(** ** A process: a sequence of calls into the library

    [sendAnalyticsEvent] reaches the property store only through
    [_addRequiredParameters], so a call to it is represented by the latter. *)
Inductive api_call : Type :=
  | call_getAnalyticsClientId (optPropertyStore : option store_ref)
  | call_generateAnalyticsTrackingUrl (parameters : loc)
      (optPropertyStore : option store_ref)
  | call_addRequiredParameters (parameters : loc)
      (optPropertyStore : option store_ref) (sentViaUrlFetch : bool).

Section Process.

Variable getUuid : nat -> string.
Variable random : nat -> double.

(** Run the calls in order; the result is the list of the identifiers that
    the calls to [getAnalyticsClientId] returned, and the final world.  An
    exception ends the call that raised it, not the process. *)
Fixpoint run (calls : list api_call) (w : world) : list string * world :=
  match calls with
  | [] => ([], w)
  | call_getAnalyticsClientId s :: rest =>
      match getAnalyticsClientId getUuid s w with
      | Return id w' => (id :: fst (run rest w'), snd (run rest w'))
      | Throw _ w' => run rest w'
      end
  | call_generateAnalyticsTrackingUrl p s :: rest =>
      run rest (final (generateAnalyticsTrackingUrl getUuid random p s w))
  | call_addRequiredParameters p s post :: rest =>
      run rest (final (_addRequiredParameters getUuid random p s post w))
  end.

End Process.

(** ** The older copy of the file

    The older copy cannot be run: its export table ends with
    [generateAnalyticsTrackingImg: generateAnalyticsTrackingImg], a name
    that the file does not declare, so loading the file throws before
    [var AnalyticsMP_ = {}] is reached.  What can be compared with the
    published code is the text of its functions.  Its loop writes
    [!parameters[i] ? i : i + '=' + encodeURI(parameters[i])], which drops
    the value of every falsy parameter, not only of the empty string; below
    is the value of that expression when [encodeURI] returns. *)
Module Draft.

Definition url_param (key : string) (v : value) : string :=
  if negb (ToBoolean v) then key
  else key +:+ "=" +:+ percent_encode (ToString v).

End Draft.

(** ** Sending a hit: [sendAnalyticsEvent]

    The function hands the normalized parameters to one of two fetchers.
    What it needs from its surroundings is kept apart from the [world]:
    whether [this['ErrorHandler']] is truthy for the call, and the requests
    made so far. *)
Inductive fetcher : Type :=
  | UrlFetchApp_fetch
  | ErrorHandler_urlFetchWithExpBackOff.

(** One call of a fetcher: the URL and the two fields of [options]; the
    payload is the object as it is when the call is made. *)
Record request : Type := mkRequest {
  fetcher_of : fetcher;
  url : string;
  method : string;
  payload : object
}.

Record network : Type := mkNetwork {
  this_ErrorHandler : bool;
  requests : list request
}.

Section Sending.

Variable getUuid : nat -> string.
Variable random : nat -> double.

(** The fetchers belong to the platform: the [n]-th request either returns
    or throws an error with the given message. *)
Variable fetch_throws : nat -> option string.

(** [sendAnalyticsEvent(parameters, optPropertyStore)] *)
Definition sendAnalyticsEvent (parameters : loc)
    (optPropertyStore : option store_ref) (n : network) (w : world)
    : outcome unit * network :=
  match _addRequiredParameters getUuid random parameters optPropertyStore true w with
  | Throw e w' => (Throw e w', n)
  | Return params w' =>
      let options := mkRequest
        (if this_ErrorHandler n then ErrorHandler_urlFetchWithExpBackOff
         else UrlFetchApp_fetch)
        "https://www.google-analytics.com/collect" "post" (deref params w') in
      let n' := mkNetwork (this_ErrorHandler n) (requests n ++ [options]) in
      match fetch_throws (length (requests n)) with
      | Some message => (Throw (Error message) w', n')
      | None => (Return tt w', n')
      end
  end.

End Sending.

(** ** The keys of an object, in enumeration order *)

Definition keys (o : object) : list string := map fst o.

Definition has_key (k : string) (ks : list string) : bool :=
  existsb (String.eqb k) ks.

(** The keys after an assignment to [k]. *)
Definition add_key (ks : list string) (k : string) : list string :=
  if has_key k ks then ks else (ks ++ [k])%list.

(** The keys that [_addRequiredParameters] assigns to, in the order of the
    assignments; [el] is among them for an event hit only, [ds] and [aip]
    under HTTP POST only. *)
Definition assigned_keys (event post : bool) : list string :=
  (["tid"; "cid"; "t"] ++ (if event then ["el"] else []) ++ ["v"; "z"]
   ++ (if post then ["ds"; "aip"] else []))%list.

(** The keys that the library never assigns to. *)
Definition reserved (k : string) : bool :=
  has_key k ["tid"; "cid"; "t"; "el"; "v"; "z"; "ds"; "aip"].

(** ** The format of a UUID

    Thirty-six characters: hexadecimal digits in groups of 8, 4, 4, 4 and 12
    separated by hyphens. *)
Definition is_hex_digit (c : ascii) : bool :=
  in_range "0" "9" c || in_range "a" "f" c || in_range "A" "F" c.

Fixpoint uuid_shape (i : nat) (s : string) : bool :=
  match s with
  | EmptyString => Nat.eqb i 36
  | String c s' =>
      (if Nat.eqb i 8 || Nat.eqb i 13 || Nat.eqb i 18 || Nat.eqb i 23
       then Ascii.eqb c "-" else is_hex_digit c)
      && uuid_shape (S i) s'
  end.

Definition is_uuid (s : string) : bool := uuid_shape 0 s.

(** ** The serialization rule as the specification words it

    For each key in the set's order, the key alone if the value is falsy,
    else [key=percent-encoded-value]; all pairs joined with [&]. *)
Definition spec_url_param (key : string) (v : value) : string :=
  if ToBoolean v then key +:+ "=" +:+ percent_encode (ToString v) else key.


(** ** Two outcomes that a caller cannot tell apart

    The same exception, or results with the same properties; in both cases
    the same client identifier cache, stores and access log. *)
Definition same_effects (w1 w2 : world) : Prop :=
  clientId w1 = clientId w2 /\ stores w1 = stores w2 /\ trace w1 = trace w2.


(** ** The object built by [_addRequiredParameters]

    The two functions below describe the object that the call builds in its
    copy; [addRequired_unfold] relates them to the embedded code, and the
    theorems are then proved about the code through it. *)

Definition resolve_tid (configured : option value) (o : object) : option object :=
  if truthy (obj_get "tid" o) then Some o
  else match configured with
       | Some id => if ToBoolean id then Some (obj_set "tid" id o) else None
       | None => None
       end.

Definition fill_defaults (cid : string) (z : Z) (post : bool) (o : object) : object :=
  let o1 := obj_set "cid" (VStr cid) o in
  let o2 := obj_set "t" (or_else (obj_get "t" o1) (VStr "event")) o1 in
  let o3 := if is_string (obj_get "t" o2) "event" && negb (truthy (obj_get "el" o2))
            then obj_set "el" (VStr "") o2 else o2 in
  let o4 := obj_set "z" (VNum z) (obj_set "v" (VStr "1") o3) in
  if post
  then obj_set "aip" (VStr "1")
         (obj_set "ds" (or_else (obj_get "ds" o4) (VStr "urlFetch")) o4)
  else o4.

(** The hit type after the default has been applied. *)
Definition resolved_t (o : object) : value :=
  or_else (obj_get "t" o) (VStr "event").

(** The world while the copy at [q] holds [o] and [c] random numbers have
    been drawn; everything else is as in [w1]. *)
Definition at_obj (q : loc) (h : gmap loc object) (w1 : world)
    (o : object) (c : nat) : world :=
  mkWorld (<[q := o]> h) (clientId w1) (ANALYTICS_TRACKING_ID w1) (stores w1)
          (trace w1) (uuid_calls w1) c.


(** ** The store accesses of a whole process

    What a process may add to the access log over its lifetime: nothing; or
    one read that finds an identifier; or one read that finds none, followed
    by the write of the new identifier. *)
Definition lifetime_accesses (w : world) (t : list store_event) : Prop :=
  t = [] \/
  (exists st,
     t = [GetProperty st "clientId"] /\
     truthy_id (stores w !! (st, "clientId")) <> None) \/
  (exists st id,
     t = [GetProperty st "clientId"; SetProperty st "clientId" id] /\
     truthy_id (clientId w) = None /\
     truthy_id (stores w !! (st, "clientId")) = None).

(** ** Concrete data for the examples *)

Definition example_getUuid (n : nat) : string :=
  match n with
  | O => "0f8fad5b-d9cb-469f-a165-70867728950e"
  | _ => "7c9e6679-7425-40de-944b-e07fc1f90ae7"
  end.

(** Two thirds, to the nearest double. *)
Definition example_random (n : nat) : double :=
  mkDouble 6004799503160661 53.

(** A process that has just started: the caller holds one object, at
    reference 0; nothing is cached, stored or logged. *)
Definition example_world (parameters : object) (tracking_id : option value) : world :=
  mkWorld {[ 0%nat := parameters ]} None tracking_id ∅ [] 0 0.

Definition example_hit : object :=
  [("ec", VStr "Installed"); ("ea", VStr "en-US")].

Definition example_start : world :=
  example_world example_hit (Some (VStr "UA-12345-1")).

Definition example_result (sentViaUrlFetch : bool) : outcome loc :=
  _addRequiredParameters example_getUuid example_random 0%nat None
    sentViaUrlFetch example_start.


(** A page view. *)
Definition example_pageview : world :=
  example_world [("t", VStr "pageview"); ("dp", VStr "/home")]
                (Some (VStr "UA-12345-1")).

Definition example_pageview_result : outcome loc :=
  _addRequiredParameters example_getUuid example_random 0%nat None false
    example_pageview.

(** The code unit [D800] on its own, which is no character. *)
Definition lone_surrogate : string :=
  String (ascii_of_nat 237) (String (ascii_of_nat 160) (String (ascii_of_nat 128) "")).

(** A hit whose document title holds a lone surrogate. *)
Definition example_malformed : world :=
  example_world [("dt", VStr ("a" +:+ lone_surrogate +:+ "b"))]
                (Some (VStr "UA-12345-1")).


(** A process whose user store already holds an identifier. *)
Definition example_returning : world :=
  mkWorld {[ 0%nat := example_hit ]} None (Some (VStr "UA-12345-1"))
          {[ (UserProperties, "clientId") := "7c9e6679-7425-40de-944b-e07fc1f90ae7" ]}
          [] 0 0.

(** A process whose user store holds the empty string as identifier. *)
Definition example_blank : world :=
  mkWorld {[ 0%nat := example_hit ]} None (Some (VStr "UA-12345-1"))
          {[ (UserProperties, "clientId") := "" ]} [] 0 0.

(** Three calls into the library. *)
Definition example_calls : list api_call :=
  [call_getAnalyticsClientId None;
   call_addRequiredParameters 0%nat (Some ScriptProperties) true;
   call_getAnalyticsClientId (Some ScriptProperties)].

(** No request made yet, no [ErrorHandler] in sight. *)
Definition example_network : network := mkNetwork false [].

(** A platform whose fetchers never throw. *)
Definition example_fetch (n : nat) : option string := None.

(** * Properties *)

(** ** Objects *)

Lemma obj_get_set_eq k v o : obj_get k (obj_set k v o) = Some v.
Proof.
  induction o as [|[k' v'] o IH]; simpl.
  - now rewrite String.eqb_refl.
  - destruct (String.eqb_spec k k') as [->|Hne]; simpl.
    + now rewrite String.eqb_refl.
    + destruct (String.eqb_spec k k'); [contradiction | exact IH].
Qed.

Lemma obj_get_set_ne k k' v o :
  k <> k' -> obj_get k' (obj_set k v o) = obj_get k' o.
Proof.
  intros Hne. induction o as [|[k0 v0] o IH]; simpl.
  - destruct (String.eqb_spec k' k); congruence.
  - destruct (String.eqb_spec k k0) as [->|_]; simpl.
    + destruct (String.eqb_spec k' k0); congruence.
    + now rewrite IH.
Qed.

Lemma obj_get_set k k' v o :
  obj_get k' (obj_set k v o) = if String.eqb k k' then Some v else obj_get k' o.
Proof.
  destruct (String.eqb_spec k k') as [->|Hne].
  - apply obj_get_set_eq.
  - now apply obj_get_set_ne.
Qed.



(** ** What a call does, step by step *)

Section Steps.

Variable getUuid : nat -> string.
Variable random : nat -> double.

Lemma getAnalyticsClientId_cached s w id :
  truthy_id (clientId w) = Some id ->
  getAnalyticsClientId getUuid s w = Return id w.
Proof.
  intros H. unfold getAnalyticsClientId, bind, read_clientId. now rewrite H.
Qed.

Lemma getAnalyticsClientId_stored s w id :
  truthy_id (clientId w) = None ->
  truthy_id (stores w !! (default UserProperties s, "clientId")) = Some id ->
  getAnalyticsClientId getUuid s w =
  Return id
    (with_clientId (stores w !! (default UserProperties s, "clientId"))
       (with_store (stores w)
          (trace w ++ [GetProperty (default UserProperties s) "clientId"]) w)).
Proof.
  intros Hc Hs.
  unfold getAnalyticsClientId, bind, read_clientId. rewrite Hc.
  unfold getProperty, write_clientId. now rewrite Hs.
Qed.

Lemma getAnalyticsClientId_generated s w :
  truthy_id (clientId w) = None ->
  truthy_id (stores w !! (default UserProperties s, "clientId")) = None ->
  let st := default UserProperties s in
  let uuid := getUuid (uuid_calls w) in
  getAnalyticsClientId getUuid s w =
  Return uuid
    (mkWorld (heap w) (Some uuid) (ANALYTICS_TRACKING_ID w)
       (<[(st, "clientId") := uuid]> (stores w))
       (trace w ++ [GetProperty st "clientId"; SetProperty st "clientId" uuid])
       (S (uuid_calls w)) (random_calls w)).
Proof.
  intros Hc Hs st uuid. subst st uuid.
  unfold getAnalyticsClientId, bind, read_clientId. rewrite Hc.
  unfold getProperty, write_clientId. rewrite Hs.
  unfold Utilities_getUuid, setProperty, with_store, with_clientId,
    with_uuid_calls; simpl.
  now rewrite <- app_assoc.
Qed.

(** The call always returns, and touches neither the heap, the configured
    tracking ID nor the random source. *)
Lemma getAnalyticsClientId_frame s w :
  exists id w',
    getAnalyticsClientId getUuid s w = Return id w' /\
    heap w' = heap w /\
    ANALYTICS_TRACKING_ID w' = ANALYTICS_TRACKING_ID w /\
    random_calls w' = random_calls w.
Proof.
  destruct (truthy_id (clientId w)) as [id|] eqn:Hc.
  - exists id, w. now rewrite (getAnalyticsClientId_cached _ _ _ Hc).
  - destruct (truthy_id (stores w !! (default UserProperties s, "clientId")))
      as [id|] eqn:Hs.
    + eexists _, _. now rewrite (getAnalyticsClientId_stored _ _ _ Hc Hs).
    + eexists _, _. now rewrite (getAnalyticsClientId_generated _ _ Hc Hs).
Qed.

(** The call does not look at the heap. *)
Lemma getAnalyticsClientId_with_heap h s w :
  getAnalyticsClientId getUuid s (with_heap h w) =
  match getAnalyticsClientId getUuid s w with
  | Return id w1 => Return id (with_heap h w1)
  | Throw e w1 => Throw e (with_heap h w1)
  end.
Proof.
  unfold getAnalyticsClientId, bind, read_clientId, getProperty, write_clientId,
    Utilities_getUuid, setProperty, ret, with_store, with_clientId,
    with_uuid_calls, with_heap; simpl.
  destruct (truthy_id (clientId w)); simpl; [reflexivity|].
  destruct (truthy_id (stores w !! (default UserProperties s, "clientId")));
    reflexivity.
Qed.

Lemma step_ret {A B : Type} (a : A) (K : A -> M B) w :
  bind (ret a) K w = K a w.
Proof. reflexivity. Qed.

Lemma step_prop_get {A : Type} q h w1 o c k (K : option value -> M A) :
  bind (prop_get q k) K (at_obj q h w1 o c) =
  K (obj_get k o) (at_obj q h w1 o c).
Proof.
  unfold bind, prop_get, at_obj, deref; simpl.
  now rewrite lookup_total_insert_eq.
Qed.

Lemma step_prop_set {A : Type} q h w1 o c k v (K : unit -> M A) :
  bind (prop_set q k v) K (at_obj q h w1 o c) =
  K tt (at_obj q h w1 (obj_set k v o) c).
Proof.
  unfold bind, prop_set, at_obj, with_heap, deref; simpl.
  now rewrite lookup_total_insert_eq, insert_insert_eq.
Qed.

Lemma step_Math_random {A : Type} q h w1 o c (K : double -> M A) :
  bind (Math_random random) K (at_obj q h w1 o c) =
  K (random c) (at_obj q h w1 o (S c)).
Proof. reflexivity. Qed.

Lemma step_getAnalyticsClientId {A : Type} q s w o cid w1 (K : string -> M A) :
  getAnalyticsClientId getUuid s w = Return cid w1 ->
  bind (getAnalyticsClientId getUuid s) K (at_obj q (heap w) w o (random_calls w)) =
  K cid (at_obj q (heap w) w1 o (random_calls w)).
Proof.
  intros Hcid.
  destruct (getAnalyticsClientId_frame s w) as (id & w' & Hc & _ & _ & Hr).
  rewrite Hcid in Hc. injection Hc as <- <-.
  unfold bind.
  change (at_obj q (heap w) w o (random_calls w))
    with (with_heap (<[q := o]> (heap w)) w).
  rewrite getAnalyticsClientId_with_heap, Hcid.
  unfold at_obj, with_heap. now rewrite Hr.
Qed.

Lemma bind_assoc {A B C : Type} (m : M A) (f : A -> M B) (g : B -> M C) w :
  bind (bind m f) g w = bind m (fun x => bind (f x) g) w.
Proof. unfold bind. now destruct (m w). Qed.

Ltac step :=
  cbv beta iota;
  first [ rewrite bind_assoc
        | rewrite step_ret
        | rewrite step_prop_get
        | rewrite step_prop_set
        | rewrite step_Math_random ].

Lemma addRequired_unfold p s post w cid w1 :
  getAnalyticsClientId getUuid s w = Return cid w1 ->
  let q := fresh (dom (heap w)) in
  _addRequiredParameters getUuid random p s post w =
  match resolve_tid (ANALYTICS_TRACKING_ID w) (deref p w) with
  | None =>
      Throw (Error TRACKING_ID_REQUIRED)
            (with_heap (<[q := deref p w]> (heap w)) w)
  | Some o =>
      Return q
        (with_random_calls (S (random_calls w))
           (with_heap (<[q := fill_defaults cid (drawn_z random w) post o]> (heap w))
                      w1))
  end.
Proof.
  intros Hcid q.
  unfold _addRequiredParameters.
  unfold bind at 1. unfold JSON_clone. fold q.
  change (with_heap (<[q := deref p w]> (heap w)) w)
    with (at_obj q (heap w) w (deref p w) (random_calls w)).
  step.
  match goal with
  | |- context [bind (getAnalyticsClientId getUuid s) ?K] =>
      set (rest := bind (getAnalyticsClientId getUuid s) K)
  end.
  assert (Hrest : forall o,
    rest (at_obj q (heap w) w o (random_calls w)) =
    Return q
      (with_random_calls (S (random_calls w))
         (with_heap (<[q := fill_defaults cid (drawn_z random w) post o]> (heap w))
                    w1))).
  { intros o. unfold rest.
    rewrite (step_getAnalyticsClientId _ _ _ _ _ _ _ Hcid).
    do 5 step.
    unfold fill_defaults, drawn_z.
    set (o2 := obj_set "t" _ _).
    destruct (is_string (obj_get "t" o2) "event" && negb (truthy (obj_get "el" o2)));
      destruct post; repeat step; reflexivity. }
  clearbody rest.
  unfold resolve_tid.
  destruct (truthy (obj_get "tid" (deref p w))) eqn:Htid; simpl negb; cbv iota.
  - step. apply Hrest.
  - rewrite bind_assoc. unfold bind at 1. unfold read_tracking_id at 1.
    cbv beta iota.
    change (ANALYTICS_TRACKING_ID (at_obj q (heap w) w (deref p w) (random_calls w)))
      with (ANALYTICS_TRACKING_ID w).
    destruct (ANALYTICS_TRACKING_ID w) as [id|]; [|reflexivity].
    destruct (ToBoolean id); simpl negb; cbv iota; [|reflexivity].
    step. apply Hrest.
Qed.

End Steps.

(** ** The object built by a call *)

(** Decide the comparisons between two string literals in the goal. *)
Ltac lit_eqb :=
  repeat match goal with
         | |- context [String.eqb ?a ?b] =>
             let r := eval vm_compute in (String.eqb a b) in
             match r with
             | true => change (String.eqb a b) with true
             | false => change (String.eqb a b) with false
             end
         end;
  cbv iota.

Lemma obj_get_if (b : bool) k (o1 o2 : object) :
  obj_get k (if b then o1 else o2) = if b then obj_get k o1 else obj_get k o2.
Proof. now destruct b. Qed.

Lemma fill_defaults_get cid z post o k :
  obj_get k (fill_defaults cid z post o) =
  if post && String.eqb "aip" k then Some (VStr "1")
  else if post && String.eqb "ds" k
       then Some (or_else (obj_get "ds" o) (VStr "urlFetch"))
  else if String.eqb "z" k then Some (VNum z)
  else if String.eqb "v" k then Some (VStr "1")
  else if String.eqb "el" k
          && (is_string (Some (resolved_t o)) "event"
              && negb (truthy (obj_get "el" o)))
       then Some (VStr "")
  else if String.eqb "t" k then Some (resolved_t o)
  else if String.eqb "cid" k then Some (VStr cid)
  else obj_get k o.
Proof.
  unfold fill_defaults, resolved_t.
  destruct post; rewrite ?Bool.andb_true_l, ?Bool.andb_false_l; cbv iota;
    rewrite ?obj_get_set, ?obj_get_if, ?obj_get_set; lit_eqb;
    destruct (is_string _ "event" && _);
    rewrite ?Bool.andb_true_r, ?Bool.andb_false_r; cbv iota;
    repeat match goal with
           | |- context [String.eqb ?a k] =>
               destruct (String.eqb_spec a k) as [<-|?]; lit_eqb
           end;
    reflexivity.
Qed.

(** ** The cache buster *)

(** The model computes what a JavaScript engine computes.  One tenth, the
    double [3602879701896397 / 2^55], times [10E7] is exactly ten million;
    three tenths, [5404319552844595 / 2^54], times [10E7] is exactly thirty
    million, although the double is below three tenths; and the largest
    double below one gives 99999999. *)
Example floor_mul_one_tenth :
  fmul_10E7 (mkDouble 3602879701896397 55) = mkDouble (10000000 * 2 ^ 55) 55 /\
  Math_floor (fmul_10E7 (mkDouble 3602879701896397 55)) = 10000000.
Proof. split; reflexivity. Qed.

Example floor_mul_three_tenths :
  Math_floor (fmul_10E7 (mkDouble 5404319552844595 54)) = 30000000 /\
  Z.shiftr (5404319552844595 * ten_E7) 54 = 29999999.
Proof. split; reflexivity. Qed.

Example floor_mul_largest :
  Math_floor (fmul_10E7 (mkDouble (2 ^ 53 - 1) 53)) = 99999999.
Proof. reflexivity. Qed.

Section Rounding.

Variable n : Z.
Hypothesis n_large : 2 ^ 53 <= n.
Hypothesis n_small : n < 2 ^ 80.

(** Between 1 and 27 low bits are rounded away. *)
Lemma round53_shift : 1 <= Z.log2 n + 1 - 53 <= 27.
Proof.
  assert (0 < n) by lia.
  assert (53 <= Z.log2 n) by (apply Z.log2_le_pow2; lia).
  assert (Z.log2 n < 80) by (apply Z.log2_lt_pow2; lia).
  lia.
Qed.

(** The result is a multiple of the quantum, it is more than [n] less one
    quantum, and it exceeds [n] by at most half a quantum. *)
Lemma round53_large :
  exists q,
    round53 n = q * 2 ^ (Z.log2 n + 1 - 53) /\
    n - 2 ^ (Z.log2 n + 1 - 53) < q * 2 ^ (Z.log2 n + 1 - 53) /\
    q * 2 ^ (Z.log2 n + 1 - 53) <= n + 2 ^ 26.
Proof.
  pose proof round53_shift as Hsh.
  unfold round53.
  destruct (Z.ltb_spec n (2 ^ 53)) as [Hlt|_]; [lia|].
  set (sh := Z.log2 n + 1 - 53) in *.
  rewrite Z.shiftr_div_pow2, !Z.shiftl_mul_pow2 by lia.
  rewrite Z.mul_1_l.
  set (P := 2 ^ sh).
  set (H := 2 ^ (sh - 1)).
  assert (HP : P = 2 * H).
  { unfold P, H. replace sh with (Z.succ (sh - 1)) at 1 by lia.
    rewrite Z.pow_succ_r by lia. reflexivity. }
  assert (HH : 0 < H <= 2 ^ 26).
  { unfold H. split; [apply Z.pow_pos_nonneg; lia|].
    apply Z.pow_le_mono_r; lia. }
  pose proof (Z.div_mod n P ltac:(lia)) as Hdm.
  pose proof (Z.mod_pos_bound n P ltac:(lia)) as Hmod.
  set (q := n / P) in *.
  replace (q * P) with (P * q) by apply Z.mul_comm.
  destruct ((H <? n - P * q) || ((n - P * q =? H) && Z.odd q)) eqn:Hup.
  - exists (q + 1). split; [reflexivity|].
    assert (H <= n - P * q).
    { apply Bool.orb_true_iff in Hup as [Hup|Hup].
      - apply Z.ltb_lt in Hup. lia.
      - apply Bool.andb_true_iff in Hup as [Hup _]. apply Z.eqb_eq in Hup. lia. }
    rewrite Z.mul_add_distr_r. lia.
  - exists q. split; [reflexivity|]. lia.
Qed.

End Rounding.

Lemma round53_small n : n < 2 ^ 53 -> round53 n = n.
Proof.
  intros H. unfold round53. destruct (Z.ltb_spec n (2 ^ 53)); [reflexivity|lia].
Qed.

(** [Math.floor(r * 10E7)] lies in [0, 10E7) for every double [r] of [0, 1). *)
Lemma floor_mul_range d :
  unit_double d -> 0 <= Math_floor (fmul_10E7 d) < ten_E7.
Proof.
  intros [[Hm0 Hm1] [He0 He1]].
  unfold Math_floor, fmul_10E7, ten_E7; simpl.
  rewrite Z.shiftr_div_pow2 by lia.
  assert (Hpow : 2 ^ 53 <= 2 ^ expo d) by (apply Z.pow_le_mono_r; lia).
  set (N := mant d * 100000000).
  assert (HN : 0 <= N <= (2 ^ 53 - 1) * 100000000) by (unfold N; lia).
  assert (Hr : 0 <= round53 N < 2 ^ 53 * 100000000).
  { destruct (Z.lt_ge_cases N (2 ^ 53)) as [Hs|Hl].
    - rewrite round53_small by assumption. lia.
    - destruct (round53_large N Hl ltac:(lia)) as (q & -> & Hlo & Hhi).
      pose proof (round53_shift N Hl ltac:(lia)) as Hsh.
      assert (2 ^ (Z.log2 N + 1 - 53) <= 2 ^ 27) by (apply Z.pow_le_mono_r; lia).
      lia. }
  split.
  - apply Z.div_pos; lia.
  - apply Z.div_lt_upper_bound; lia.
Qed.

(** Every integer of [0, 10E7) is the floor of such a product. *)
Lemma floor_mul_onto z :
  0 <= z < ten_E7 ->
  exists d, unit_double d /\ Math_floor (fmul_10E7 d) = z.
Proof.
  unfold ten_E7. intros Hz.
  set (m := (z * 2 ^ 53 + 99999999) / 100000000).
  assert (Hm : z * 2 ^ 53 <= m * 100000000 < z * 2 ^ 53 + 100000000).
  { pose proof (Z.div_mod (z * 2 ^ 53 + 99999999) 100000000 ltac:(lia)).
    pose proof (Z.mod_pos_bound (z * 2 ^ 53 + 99999999) 100000000 ltac:(lia)).
    unfold m. lia. }
  exists (mkDouble m 53). split.
  - unfold unit_double; simpl. lia.
  - unfold Math_floor, fmul_10E7, ten_E7; simpl mant; simpl expo.
    rewrite Z.shiftr_div_pow2 by lia.
    set (N := m * 100000000) in *.
    assert (Hr : z * 2 ^ 53 <= round53 N < (z + 1) * 2 ^ 53).
    { destruct (Z.lt_ge_cases N (2 ^ 53)) as [Hs|Hl].
      - rewrite round53_small by assumption. lia.
      - destruct (round53_large N Hl ltac:(lia)) as (q & -> & Hlo & Hhi).
        pose proof (round53_shift N Hl ltac:(lia)) as Hsh.
        set (sh := Z.log2 N + 1 - 53) in *.
        assert (HP : 0 < 2 ^ sh) by (apply Z.pow_pos_nonneg; lia).
        assert (HC : 2 ^ 53 = 2 ^ (53 - sh) * 2 ^ sh).
        { rewrite <- Z.pow_add_r by lia. f_equal. lia. }
        split; [|lia].
        assert (z * 2 ^ (53 - sh) - 1 < q).
        { apply (Z.mul_lt_mono_pos_r (2 ^ sh)); [assumption|].
          rewrite Z.mul_sub_distr_r, <- Z.mul_assoc, <- HC. lia. }
        rewrite HC, Z.mul_assoc.
        apply Z.mul_le_mono_nonneg_r; lia. }
    symmetry. apply Z.div_unique with (r := round53 N - z * 2 ^ 53); lia.
Qed.

(** ** The tracking ID *)

Lemma resolve_tid_None g o :
  resolve_tid g o = None <->
  truthy (obj_get "tid" o) = false /\ truthy g = false.
Proof.
  unfold resolve_tid.
  destruct (truthy (obj_get "tid" o)); [split; [discriminate | intros [? _]; discriminate]|].
  destruct g as [id|]; simpl; [|tauto].
  destruct (ToBoolean id); split; try discriminate; try tauto.
  intros [_ ?]; discriminate.
Qed.

Lemma resolve_tid_get g o o1 k :
  resolve_tid g o = Some o1 ->
  obj_get k o1 =
  if String.eqb "tid" k && negb (truthy (obj_get "tid" o)) then g
  else obj_get k o.
Proof.
  unfold resolve_tid.
  destruct (truthy (obj_get "tid" o)).
  - intros [= <-]. now rewrite Bool.andb_false_r.
  - destruct g as [id|]; [|discriminate].
    destruct (ToBoolean id); [|discriminate].
    intros [= <-]. now rewrite obj_get_set, Bool.andb_true_r.
Qed.

(** ** Falsy values and missing keys *)




(** ** Results and failures of [_addRequiredParameters] *)

Section Calls.

Variable getUuid : nat -> string.
Variable random : nat -> double.

Lemma addRequired_Return p s post w q w' :
  _addRequiredParameters getUuid random p s post w = Return q w' ->
  exists o cid w1,
    resolve_tid (ANALYTICS_TRACKING_ID w) (deref p w) = Some o /\
    getAnalyticsClientId getUuid s w = Return cid w1 /\
    q = fresh (dom (heap w)) /\
    heap w' = <[q := fill_defaults cid (drawn_z random w) post o]> (heap w) /\
    deref q w' = fill_defaults cid (drawn_z random w) post o /\
    random_calls w' = S (random_calls w) /\
    same_effects w' w1.
Proof.
  destruct (getAnalyticsClientId_frame getUuid s w) as (cid & w1 & Hcid & _).
  rewrite (addRequired_unfold _ _ _ _ _ _ _ _ Hcid).
  destruct (resolve_tid _ _) as [o|] eqn:Ho; [|discriminate].
  intros [= <- <-]. exists o, cid, w1.
  unfold deref, same_effects; simpl.
  rewrite lookup_total_insert_eq. auto 10.
Qed.

Lemma addRequired_Throw p s post w e w' :
  _addRequiredParameters getUuid random p s post w = Throw e w' ->
  e = Error TRACKING_ID_REQUIRED /\
  resolve_tid (ANALYTICS_TRACKING_ID w) (deref p w) = None /\
  w' = with_heap (<[fresh (dom (heap w)) := deref p w]> (heap w)) w.
Proof.
  destruct (getAnalyticsClientId_frame getUuid s w) as (cid & w1 & Hcid & _).
  rewrite (addRequired_unfold _ _ _ _ _ _ _ _ Hcid).
  destruct (resolve_tid _ _) as [o|] eqn:Ho; [discriminate|].
  intros [= <- <-]. auto.
Qed.

Lemma addRequired_fails p s post w :
  resolve_tid (ANALYTICS_TRACKING_ID w) (deref p w) = None ->
  _addRequiredParameters getUuid random p s post w =
  Throw (Error TRACKING_ID_REQUIRED)
        (with_heap (<[fresh (dom (heap w)) := deref p w]> (heap w)) w).
Proof.
  intros Ho.
  destruct (getAnalyticsClientId_frame getUuid s w) as (cid & w1 & Hcid & _).
  now rewrite (addRequired_unfold _ _ _ _ _ _ _ _ Hcid), Ho.
Qed.

Lemma addRequired_succeeds p s post w o :
  resolve_tid (ANALYTICS_TRACKING_ID w) (deref p w) = Some o ->
  exists q w', _addRequiredParameters getUuid random p s post w = Return q w'.
Proof.
  intros Ho.
  destruct (getAnalyticsClientId_frame getUuid s w) as (cid & w1 & Hcid & _).
  rewrite (addRequired_unfold _ _ _ _ _ _ _ _ Hcid), Ho. eauto.
Qed.

(** ** The claims about [_addRequiredParameters] *)

(** C1. When the parameters have no [tid] and no tracking ID is configured,
    the call throws the tracking-ID-required error and the property stores
    are neither read nor written: the access log, the stores and the cached
    identifier are as before the call.  Moreover every exception the call
    can throw is this error, thrown in this way. *)
Theorem normalize_requires_tracking_id p s post w :
  (obj_get "tid" (deref p w) = None ->
   ANALYTICS_TRACKING_ID w = None ->
   exists w',
     _addRequiredParameters getUuid random p s post w =
       Throw (Error TRACKING_ID_REQUIRED) w' /\
     trace w' = trace w /\ stores w' = stores w /\
     clientId w' = clientId w /\ uuid_calls w' = uuid_calls w) /\
  (forall e w',
     _addRequiredParameters getUuid random p s post w = Throw e w' ->
     e = Error TRACKING_ID_REQUIRED /\
     truthy (obj_get "tid" (deref p w)) = false /\
     truthy (ANALYTICS_TRACKING_ID w) = false /\
     trace w' = trace w /\ stores w' = stores w).
Proof.
  split.
  - intros Htid Hg. eexists. split.
    + apply addRequired_fails. apply resolve_tid_None. now rewrite Htid, Hg.
    + auto.
  - intros e w' H. apply addRequired_Throw in H as (-> & Ho & ->).
    apply resolve_tid_None in Ho as [? ?]. auto.
Qed.

(** C3. The call works on a copy: every object that existed before the call
    is the same after it, whether the call returns or throws, so the
    caller's parameters are unchanged; and the reference returned is to an
    object that did not exist before. *)
Theorem normalize_leaves_input_unchanged p s post w :
  let r := _addRequiredParameters getUuid random p s post w in
  (forall l o, heap w !! l = Some o -> heap (final r) !! l = Some o) /\
  (is_Some (heap w !! p) -> deref p (final r) = deref p w) /\
  (forall q w', r = Return q w' ->
     heap w !! q = None /\ is_Some (heap w' !! q) /\
     (is_Some (heap w !! p) -> q <> p)).
Proof.
  intros r.
  assert (Hfresh : heap w !! fresh (dom (heap w)) = None).
  { apply not_elem_of_dom, is_fresh. }
  assert (Hframe : forall l o, heap w !! l = Some o -> heap (final r) !! l = Some o).
  { intros l o Hl.
    assert (l <> fresh (dom (heap w))) by congruence.
    destruct r as [q w'|e w'] eqn:Hr; unfold r in Hr; simpl.
    - apply addRequired_Return in Hr as (o1 & cid & w1 & _ & _ & -> & -> & _).
      now rewrite lookup_insert_ne.
    - apply addRequired_Throw in Hr as (_ & _ & ->). simpl.
      now rewrite lookup_insert_ne. }
  split; [exact Hframe|]. split.
  - intros [o Ho]. unfold deref.
    now rewrite !lookup_total_alt, (Hframe _ _ Ho), Ho.
  - intros q w' Hr. unfold r in Hr.
    apply addRequired_Return in Hr as (o1 & cid & w1 & _ & _ & -> & -> & _).
    split; [exact Hfresh|]. split.
    + rewrite lookup_insert_eq. eauto.
    + intros [o Ho] Heq. congruence.
Qed.

(** C6. A successful call returns an object with the keys [v], [tid], [cid],
    [t] and [z].  When the hit is sent by HTTP POST it also has [aip] and
    [ds]; when it is not, these two keys are in the result exactly as the
    caller supplied them, so they are absent unless the caller set them. *)
Theorem normalized_keys p s post w q w' :
  _addRequiredParameters getUuid random p s post w = Return q w' ->
  let o := deref p w in
  let o' := deref q w' in
  (forall k, In k ["v"; "tid"; "cid"; "t"; "z"] -> is_Some (obj_get k o')) /\
  (post = true -> is_Some (obj_get "aip" o') /\ is_Some (obj_get "ds" o')) /\
  (post = false ->
     obj_get "aip" o' = obj_get "aip" o /\ obj_get "ds" o' = obj_get "ds" o).
Proof.
  intros H o o'.
  apply addRequired_Return in H as (o1 & cid & w1 & Ho1 & _ & _ & _ & Hq & _).
  subst o o'. rewrite Hq.
  pose proof (resolve_tid_get _ _ _ "tid" Ho1) as Htid.
  split; [|split].
  - intros k Hk. rewrite fill_defaults_get.
    simpl in Hk.
    destruct Hk as [<-|[<-|[<-|[<-|[<-|[]]]]]]; lit_eqb;
      rewrite ?Bool.andb_false_r, ?Bool.andb_false_l; cbv iota; eauto.
    rewrite Htid. lit_eqb. rewrite Bool.andb_true_l.
    destruct (truthy (obj_get "tid" (deref p w))) eqn:Ht; simpl.
    + destruct (obj_get "tid" (deref p w)); [eauto | discriminate].
    + unfold resolve_tid in Ho1. rewrite Ht in Ho1.
      destruct (ANALYTICS_TRACKING_ID w); [eauto | discriminate].
  - intros ->. rewrite !fill_defaults_get. lit_eqb. simpl. eauto.
  - intros ->. rewrite !fill_defaults_get. lit_eqb.
    rewrite ?Bool.andb_false_l. cbv iota.
    now rewrite (resolve_tid_get _ _ _ "aip" Ho1), (resolve_tid_get _ _ _ "ds" Ho1).
Qed.

(** C7, as amended.  When the caller's [tid] is truthy, the call succeeds
    and the result carries that same [tid], whatever tracking ID is
    configured for the process. *)
Theorem normalize_keeps_truthy_tid p s post w :
  truthy (obj_get "tid" (deref p w)) = true ->
  exists q w',
    _addRequiredParameters getUuid random p s post w = Return q w' /\
    obj_get "tid" (deref q w') = obj_get "tid" (deref p w).
Proof.
  intros Htid.
  assert (Ho : resolve_tid (ANALYTICS_TRACKING_ID w) (deref p w) = Some (deref p w)).
  { unfold resolve_tid. now rewrite Htid. }
  destruct (addRequired_succeeds p s post w _ Ho) as (q & w' & H).
  exists q, w'. split; [exact H|].
  apply addRequired_Return in H as (o1 & cid & w1 & Ho1 & _ & _ & _ & Hq & _).
  rewrite Hq, fill_defaults_get. lit_eqb.
  rewrite ?Bool.andb_false_r, ?Bool.andb_false_l. cbv iota.
  congruence.
Qed.

(** C8. The hit type of the result is the caller's when it is truthy (a
    non-empty string such as ["pageview"] is kept as it is) and ["event"]
    otherwise, in particular when the caller gave none.  When the result's
    hit type is ["event"] and the caller gave no [el], the result has [el]
    set to the empty string; when it is anything else, [el] is in the result
    exactly as the caller supplied it, so none is added. *)
Theorem event_label_default p s post w q w' :
  _addRequiredParameters getUuid random p s post w = Return q w' ->
  let o := deref p w in
  let o' := deref q w' in
  (forall t, t <> "" -> obj_get "t" o = Some (VStr t) ->
     obj_get "t" o' = Some (VStr t)) /\
  (obj_get "t" o = None -> obj_get "t" o' = Some (VStr "event")) /\
  (truthy (obj_get "t" o) = true -> obj_get "t" o' = obj_get "t" o) /\
  (truthy (obj_get "t" o) = false -> obj_get "t" o' = Some (VStr "event")) /\
  (obj_get "t" o' = Some (VStr "event") -> obj_get "el" o = None ->
   obj_get "el" o' = Some (VStr "")) /\
  (obj_get "t" o' <> Some (VStr "event") -> obj_get "el" o' = obj_get "el" o).
Proof.
  intros H o o'.
  apply addRequired_Return in H as (o1 & cid & w1 & Ho1 & _ & _ & _ & Hq & _).
  subst o o'. rewrite Hq.
  pose proof (resolve_tid_get _ _ _ "t" Ho1) as Ht.
  rewrite Bool.andb_false_l in Ht.
  pose proof (resolve_tid_get _ _ _ "el" Ho1) as Hel.
  rewrite Bool.andb_false_l in Hel.
  rewrite !fill_defaults_get. lit_eqb.
  rewrite ?Bool.andb_false_r, ?Bool.andb_false_l, ?Bool.andb_true_l. cbv iota.
  unfold resolved_t. rewrite Ht, Hel.
  assert (Hkept : truthy (obj_get "t" (deref p w)) = true ->
                  Some (or_else (obj_get "t" (deref p w)) (VStr "event")) =
                  obj_get "t" (deref p w)).
  { destruct (obj_get "t" (deref p w)) as [v|]; simpl; [|discriminate].
    now intros ->. }
  assert (Hdefault : truthy (obj_get "t" (deref p w)) = false ->
                     or_else (obj_get "t" (deref p w)) (VStr "event") = VStr "event").
  { destruct (obj_get "t" (deref p w)) as [v|]; simpl; [|reflexivity].
    now intros ->. }
  split; [|split; [|split; [|split; [|split]]]].
  - intros t Hne Hsome. rewrite <- Hsome. apply Hkept. rewrite Hsome. simpl.
    unfold str_truthy. now destruct (String.eqb_spec t "").
  - intros Hnone. rewrite Hdefault; [reflexivity|]. now rewrite Hnone.
  - exact Hkept.
  - intros Hf. now rewrite Hdefault.
  - intros [= ->] ->. reflexivity.
  - intros Hne.
    destruct (or_else (obj_get "t" (deref p w)) (VStr "event")) as [| |n|t];
      try reflexivity.
    simpl is_string.
    destruct (String.eqb_spec t "event") as [->|]; [congruence|reflexivity].
Qed.

(** C9. In the result of a successful call [z] is the number
    [Math.floor(Math.random() * 10E7)] computed from the random number drawn
    by this very call, whatever [z] the caller supplied; it is an integer
    with [0 <= z < 10^8].  Every integer in that range is the value of the
    expression for some double in [0, 1). *)
Theorem cache_buster_range p s post w q w' :
  (unit_double (random (random_calls w)) ->
   _addRequiredParameters getUuid random p s post w = Return q w' ->
   exists z,
     obj_get "z" (deref q w') = Some (VNum z) /\
     0 <= z < 10 ^ 8 /\
     z = Math_floor (fmul_10E7 (random (random_calls w))) /\
     random_calls w' = S (random_calls w)) /\
  (forall z, 0 <= z < 10 ^ 8 ->
     exists r, unit_double r /\ Math_floor (fmul_10E7 r) = z).
Proof.
  split.
  - intros Hr H.
    apply addRequired_Return in H as (o1 & cid & w1 & _ & _ & _ & _ & Hq & Hc & _).
    exists (drawn_z random w). rewrite Hq, fill_defaults_get. lit_eqb.
    rewrite ?Bool.andb_false_r. cbv iota.
    repeat split; try assumption; apply (floor_mul_range _ Hr).
  - intros z Hz. apply floor_mul_onto. exact Hz.
Qed.



(** ** The client identifier *)

Lemma is_uuid_truthy id : is_uuid id = true -> truthy_id (Some id) = Some id.
Proof.
  destruct id; [discriminate | reflexivity].
Qed.

(** C4. With nothing cached and no identifier in the store (in particular
    with an empty store), the call draws a UUID, writes it to the store
    under the key [clientId] and returns it.  A process that then starts
    with an empty cache and the same store contents gets that same
    identifier back from one read: it draws no UUID and writes nothing. *)
Theorem first_call_persists s w :
  truthy_id (clientId w) = None ->
  stores w !! (default UserProperties s, "clientId") = None ->
  is_uuid (getUuid (uuid_calls w)) = true ->
  let st := default UserProperties s in
  let id := getUuid (uuid_calls w) in
  exists w1,
    getAnalyticsClientId getUuid s w = Return id w1 /\
    is_uuid id = true /\
    stores w1 = <[(st, "clientId") := id]> (stores w) /\
    trace w1 =
      (trace w ++ [GetProperty st "clientId"; SetProperty st "clientId" id])%list /\
    clientId w1 = Some id /\
    forall w2,
      clientId w2 = None ->
      stores w2 = stores w1 ->
      exists w3,
        getAnalyticsClientId getUuid s w2 = Return id w3 /\
        stores w3 = stores w2 /\
        trace w3 = (trace w2 ++ [GetProperty st "clientId"])%list /\
        uuid_calls w3 = uuid_calls w2.
Proof.
  intros Hc Hs Hu st id.
  eexists. split.
  - apply getAnalyticsClientId_generated; [exact Hc | now rewrite Hs].
  - simpl. repeat split; try assumption.
    intros w2 Hc2 Hs2.
    assert (Hst : stores w2 !! (st, "clientId") = Some id).
    { rewrite Hs2. simpl. apply lookup_insert_eq. }
    eexists. split.
    + apply getAnalyticsClientId_stored with (id := id).
      * now rewrite Hc2.
      * fold st. rewrite Hst. now apply is_uuid_truthy.
    + simpl. auto.
Qed.

(** The loop of [generateAnalyticsTrackingUrl] touches nothing: it stops
    at the first value that [encodeURI] refuses, and otherwise collects one
    item per property. *)
Lemma url_item_run key v w :
  url_item key v w =
  if well_formed (ToString v) then Return (url_param key v) w
  else Throw URIError w.
Proof.
  unfold url_item, url_param.
  destruct (decide (v = VStr "")) as [->|Hv]; [reflexivity|].
  unfold bind, encodeURI.
  destruct (well_formed (ToString v)); reflexivity.
Qed.

Lemma url_items_run o : forall acc w,
  url_items o acc w =
  if forallb (fun kv : string * value => well_formed (ToString (snd kv))) o
  then Return (acc ++ map (fun kv => url_param (fst kv) (snd kv)) o)%list w
  else Throw URIError w.
Proof.
  induction o as [|[k v] o IH]; intros acc w.
  - simpl. now rewrite app_nil_r.
  - change (url_items ((k, v) :: o) acc w)
      with (bind (url_item k v) (fun item => url_items o (acc ++ [item])%list) w).
    unfold bind. rewrite url_item_run. simpl forallb. simpl snd.
    destruct (well_formed (ToString v)); [|reflexivity].
    rewrite IH, Bool.andb_true_l.
    destruct (forallb _ o); [|reflexivity].
    simpl map. now rewrite <- app_assoc.
Qed.

Lemma generateAnalyticsTrackingUrl_run p s w :
  generateAnalyticsTrackingUrl getUuid random p s w =
  match _addRequiredParameters getUuid random p s false w with
  | Return q w' =>
      if forallb (fun kv : string * value => well_formed (ToString (snd kv)))
                 (deref q w')
      then Return (ENDPOINT +:+ "?" +:+
                   join "&amp;"
                     (map (fun kv => url_param (fst kv) (snd kv)) (deref q w')))
                  w'
      else Throw URIError w'
  | Throw e w' => Throw e w'
  end.
Proof.
  unfold generateAnalyticsTrackingUrl, bind at 1.
  destruct (_addRequiredParameters getUuid random p s false w) as [q w'|e w'];
    [|reflexivity].
  unfold bind at 1, read_object. unfold bind. rewrite url_items_run.
  destruct (forallb _ _); reflexivity.
Qed.

(** Once an identifier is cached, no call looks at the stores again. *)
Lemma generateAnalyticsTrackingUrl_final p s w :
  final (generateAnalyticsTrackingUrl getUuid random p s w) =
  final (_addRequiredParameters getUuid random p s false w).
Proof.
  rewrite generateAnalyticsTrackingUrl_run.
  destruct (_addRequiredParameters getUuid random p s false w) as [q w'|e w'];
    [|reflexivity].
  now destruct (forallb _ _).
Qed.

Lemma addRequired_effects p s post w :
  let w' := final (_addRequiredParameters getUuid random p s post w) in
  (same_effects w' w /\ uuid_calls w' = uuid_calls w) \/
  (exists cid w1,
     getAnalyticsClientId getUuid s w = Return cid w1 /\ same_effects w' w1).
Proof.
  intros w'. subst w'.
  destruct (_addRequiredParameters getUuid random p s post w) as [q w'|e w'] eqn:H.
  - apply addRequired_Return in H as (o & cid & w1 & _ & Hcid & _ & _ & _ & _ & He).
    right. eauto.
  - apply addRequired_Throw in H as (_ & _ & ->).
    left. unfold same_effects. auto.
Qed.


(** The first call that reaches [getAnalyticsClientId] settles the
    identifier. *)
Lemma getAnalyticsClientId_settles s w :
  truthy_id (clientId w) = None ->
  is_uuid (getUuid (uuid_calls w)) = true ->
  exists id w1 t,
    getAnalyticsClientId getUuid s w = Return id w1 /\
    truthy_id (clientId w1) = Some id /\
    trace w1 = (trace w ++ t)%list /\
    t <> [] /\ lifetime_accesses w t /\ (store_writes t <= 1)%nat.
Proof.
  intros Hc Hu.
  destruct (truthy_id (stores w !! (default UserProperties s, "clientId")))
    as [id|] eqn:Hs.
  - eexists id, _, _. split; [apply (getAnalyticsClientId_stored _ _ _ _ Hc Hs)|].
    simpl. repeat split; try assumption; try discriminate.
    + right; left. eexists. split; [reflexivity|]. now rewrite Hs.
    + unfold store_writes; simpl. lia.
  - eexists _, _, _. split; [apply (getAnalyticsClientId_generated _ _ _ Hc Hs)|].
    simpl. repeat split; try discriminate.
    + now apply is_uuid_truthy.
    + right; right. eauto.
    + unfold store_writes; simpl. lia.
Qed.



(** ** The tracking URL *)

Example percent_encode_example :
  percent_encode "a b&c=d/e%[f]" = "a%20b&c=d/e%25%5Bf%5D".
Proof. reflexivity. Qed.

(** Two bytes for a letter with an accent, four for a character beyond the
    basic plane. *)
Example percent_encode_utf8 :
  percent_encode "café 😀" = "caf%C3%A9%20%F0%9F%98%80" /\
  well_formed "café 😀" = true.
Proof. split; reflexivity. Qed.

Example encodeURI_lone_surrogate w :
  well_formed lone_surrogate = false /\
  encodeURI ("a" +:+ lone_surrogate +:+ "b") w = Throw URIError w.
Proof. split; reflexivity. Qed.

(** Numbers as [encodeURI] sees them. *)
Example ToString_numbers :
  ToString (VNum 0) = "0" /\
  ToString (VNum (-42)) = "-42" /\
  ToString (VNum 66666666) = "66666666" /\
  ToString (VNum 9007199254740991) = "9007199254740991" /\
  ToString (VNum 9007199254740993) = "9007199254740992" /\
  ToString (VNum 1152921504606846976) = "1152921504606847000" /\
  ToString (VNum 999999999999999868928) = "999999999999999900000" /\
  ToString (VNum (10 ^ 21)) = "1e+21" /\
  ToString (VNum (10 ^ 23)) = "1e+23" /\
  ToString (VNum (- 123456789012345678901234567890)) = "-1.2345678901234568e+29".
Proof. repeat split; vm_compute; reflexivity. Qed.

Lemma append_empty_r s0 : s0 +:+ "" = s0.
Proof.
  induction s0 as [|c s0 IH]; [reflexivity|].
  change (String c s0 +:+ "") with (String c (s0 +:+ "")). now rewrite IH.
Qed.




Lemma forallb_Exists {A : Type} (f : A -> bool) (l : list A) :
  Exists (fun x => f x = false) l <-> forallb f l = false.
Proof.
  split.
  - induction 1 as [x l Hx|x l _ IH]; simpl.
    + now rewrite Hx.
    + rewrite IH. apply Bool.andb_false_r.
  - induction l as [|x l IH]; simpl; [discriminate|].
    destruct (f x) eqn:Hx; simpl.
    + intros H. right. now apply IH.
    + intros _. now left.
Qed.


End Calls.

(** * Examples and counterexamples *)


(** The separator alone already tells the two apart. *)
Example tracking_url_separator :
  join "&amp;" ["ec=Installed"; "ea=en-US"] = "ec=Installed&amp;ea=en-US" /\
  join "&" ["ec=Installed"; "ea=en-US"] = "ec=Installed&ea=en-US".
Proof. split; reflexivity. Qed.

(** A falsy value that is not the empty string keeps its [=value] in the
    code, and loses it in the rule as the specification words it. *)
Example tracking_url_zero_value :
  url_param "ev" (VNum 0) = "ev=0" /\ spec_url_param "ev" (VNum 0) = "ev".
Proof. split; reflexivity. Qed.

(** A value with a lone surrogate stops the call at [encodeURI], after the
    client identifier has been stored. *)
Example tracking_url_malformed :
  exists w',
    generateAnalyticsTrackingUrl example_getUuid example_random 0%nat None
      example_malformed = Throw URIError w' /\
    stores w' !! (UserProperties, "clientId") =
      Some "0f8fad5b-d9cb-469f-a165-70867728950e".
Proof.
  eexists. split; vm_compute; reflexivity.
Qed.

(** C7, as stated, fails: the key [tid] is set, to the empty string, and the
    result carries the tracking ID configured for the process. *)
Lemma falsy_tid_counterexample :
  let w := example_world [("tid", VStr "")] (Some (VStr "UA-12345-1")) in
  obj_get "tid" (deref 0%nat w) = Some (VStr "") /\
  exists q w',
    _addRequiredParameters example_getUuid example_random 0%nat None false w =
      Return q w' /\
    obj_get "tid" (deref q w') = Some (VStr "UA-12345-1").
Proof.
  split; [reflexivity|].
  eexists _, _. split; vm_compute; reflexivity.
Qed.

(** ** The theorems at work on the example process *)

Lemma normalize_requires_tracking_id_witness :
  exists w',
    _addRequiredParameters example_getUuid example_random 0%nat None true
      (example_world example_hit None) =
      Throw (Error TRACKING_ID_REQUIRED) w' /\
    trace w' = [] /\ stores w' = ∅ /\ clientId w' = None /\ uuid_calls w' = 0%nat.
Proof.
  exact (proj1 (normalize_requires_tracking_id example_getUuid example_random
                  0%nat None true (example_world example_hit None))
               eq_refl eq_refl).
Defined.


Lemma normalize_leaves_input_unchanged_witness :
  deref 0%nat (final (example_result true)) = example_hit.
Proof.
  apply (proj1 (proj2 (normalize_leaves_input_unchanged example_getUuid
                         example_random 0%nat None true example_start))).
  exists example_hit. reflexivity.
Defined.

Lemma first_call_persists_witness :
  exists w1,
    getAnalyticsClientId example_getUuid None example_start =
      Return "0f8fad5b-d9cb-469f-a165-70867728950e" w1 /\
    stores w1 !! (UserProperties, "clientId") =
      Some "0f8fad5b-d9cb-469f-a165-70867728950e".
Proof.
  pose proof (first_call_persists example_getUuid None example_start
                eq_refl eq_refl eq_refl) as H.
  cbv zeta in H. destruct H as (w1 & H1 & _ & H3 & _).
  exists w1. split; [exact H1|].
  rewrite H3. apply lookup_insert_eq.
Defined.


Lemma normalized_keys_witness :
  is_Some (obj_get "aip" (deref 1%nat (final (example_result true)))) /\
  is_Some (obj_get "ds" (deref 1%nat (final (example_result true)))).
Proof.
  assert (H : _addRequiredParameters example_getUuid example_random 0%nat None
                true example_start = Return 1%nat (final (example_result true)))
    by (vm_compute; reflexivity).
  exact (proj1 (proj2 (normalized_keys _ _ _ _ _ _ _ _ H)) eq_refl).
Defined.

Lemma normalize_keeps_truthy_tid_witness :
  exists q w',
    _addRequiredParameters example_getUuid example_random 0%nat None false
      (example_world [("tid", VStr "UA-99999-9")] (Some (VStr "UA-12345-1"))) =
      Return q w' /\
    obj_get "tid" (deref q w') = Some (VStr "UA-99999-9").
Proof.
  exact (normalize_keeps_truthy_tid example_getUuid example_random 0%nat None
           false
           (example_world [("tid", VStr "UA-99999-9")] (Some (VStr "UA-12345-1")))
           eq_refl).
Defined.

Lemma event_label_default_witness :
  (obj_get "t" (deref 1%nat (final (example_result false))) = Some (VStr "event") /\
   obj_get "el" (deref 1%nat (final (example_result false))) = Some (VStr "")) /\
  (obj_get "t" (deref 1%nat (final example_pageview_result)) =
     Some (VStr "pageview") /\
   obj_get "el" (deref 1%nat (final example_pageview_result)) = None).
Proof.
  split.
  - assert (H : _addRequiredParameters example_getUuid example_random 0%nat None
                  false example_start = Return 1%nat (final (example_result false)))
      by (vm_compute; reflexivity).
    destruct (event_label_default _ _ _ _ _ _ _ _ H) as (_ & Ht & _ & _ & Hel & _).
    split; [exact (Ht eq_refl) | exact (Hel (Ht eq_refl) eq_refl)].
  - assert (H : _addRequiredParameters example_getUuid example_random 0%nat None
                  false example_pageview =
                Return 1%nat (final example_pageview_result))
      by (vm_compute; reflexivity).
    destruct (event_label_default _ _ _ _ _ _ _ _ H) as (Ht & _ & _ & _ & _ & Hel).
    assert (Hpv : obj_get "t" (deref 1%nat (final example_pageview_result)) =
                  Some (VStr "pageview")).
    { apply (Ht "pageview"); [discriminate | reflexivity]. }
    split; [exact Hpv|].
    rewrite Hel; [reflexivity|]. rewrite Hpv. discriminate.
Defined.

Lemma cache_buster_range_witness :
  exists z,
    obj_get "z" (deref 1%nat (final (example_result false))) = Some (VNum z) /\
    0 <= z < 10 ^ 8 /\
    z = Math_floor (fmul_10E7 (example_random 0%nat)) /\
    random_calls (final (example_result false)) = 1%nat.
Proof.
  assert (H : _addRequiredParameters example_getUuid example_random 0%nat None
                false example_start = Return 1%nat (final (example_result false)))
    by (vm_compute; reflexivity).
  assert (Hr : unit_double (example_random (random_calls example_start)))
    by (unfold unit_double; simpl; lia).
  exact (proj1 (cache_buster_range example_getUuid example_random 0%nat None
                  false example_start 1%nat (final (example_result false)))
               Hr H).
Defined.


(** ** The older copy *)

(** It leaves out the value of every falsy parameter. *)
Example draft_url_zero_value :
  Draft.url_param "ev" (VNum 0) = "ev" /\ Draft.url_param "el" (VStr "") = "el".
Proof. split; reflexivity. Qed.

(** * Further properties of the library *)

Lemma truthy_id_Some c id :
  truthy_id c = Some id -> c = Some id /\ str_truthy id = true.
Proof.
  destruct c as [id'|]; simpl; [|discriminate].
  destruct (str_truthy id') eqn:E; [|discriminate].
  intros [= <-]. auto.
Qed.

Lemma reserved_false k :
  reserved k = false ->
  String.eqb "tid" k = false /\ String.eqb "cid" k = false /\
  String.eqb "t" k = false /\ String.eqb "el" k = false /\
  String.eqb "v" k = false /\ String.eqb "z" k = false /\
  String.eqb "ds" k = false /\ String.eqb "aip" k = false.
Proof.
  unfold reserved, has_key. simpl existsb.
  rewrite !Bool.orb_false_iff, !(String.eqb_sym k). tauto.
Qed.

Lemma resolve_tid_truthy g o o1 :
  resolve_tid g o = Some o1 -> truthy (obj_get "tid" o1) = true.
Proof.
  unfold resolve_tid. destruct (truthy (obj_get "tid" o)) eqn:Ht.
  - now intros [= <-].
  - destruct g as [id|]; [|discriminate].
    destruct (ToBoolean id) eqn:Hid; [|discriminate].
    intros [= <-]. now rewrite obj_get_set_eq.
Qed.

Lemma resolve_tid_Some g o :
  truthy (obj_get "tid" o) = true \/ truthy g = true ->
  exists o1, resolve_tid g o = Some o1.
Proof.
  intros H. destruct (resolve_tid g o) as [o1|] eqn:Ho; [eauto|].
  apply resolve_tid_None in Ho as [? ?]. destruct H; congruence.
Qed.

(** ** Keys and their order *)

Lemma has_key_keys k o :
  has_key k (keys o) = match obj_get k o with Some _ => true | None => false end.
Proof.
  induction o as [|[k' v'] o IH]; simpl; [reflexivity|].
  destruct (String.eqb k k'); [reflexivity | exact IH].
Qed.

Lemma has_key_In k ks : has_key k ks = true <-> In k ks.
Proof.
  unfold has_key. rewrite existsb_exists. split.
  - intros (x & Hx & E). apply String.eqb_eq in E. now subst.
  - intros H. exists k. split; [exact H | apply String.eqb_refl].
Qed.

Lemma keys_obj_set k v o : keys (obj_set k v o) = add_key (keys o) k.
Proof.
  unfold add_key. induction o as [|[k' v'] o IH]; simpl; [reflexivity|].
  destruct (String.eqb_spec k k') as [->|Hne]; simpl; [reflexivity|].
  rewrite IH. now destruct (has_key k (keys o)).
Qed.

Lemma add_key_present k ks : has_key k ks = true -> add_key ks k = ks.
Proof. unfold add_key. now intros ->. Qed.

(** Assigning in turn to keys that are all different: the old keys stay in
    place and the new ones follow, in the order of the assignments. *)
Lemma fold_add_key l : forall ks,
  List.NoDup l ->
  fold_left add_key l ks =
  (ks ++ List.filter (fun k => negb (has_key k ks)) l)%list.
Proof.
  induction l as [|k l IH]; intros ks Hl; simpl.
  - now rewrite app_nil_r.
  - apply NoDup_cons_iff in Hl as [Hk Hl]. rewrite IH by exact Hl.
    unfold add_key. destruct (has_key k ks) eqn:E; simpl; [reflexivity|].
    rewrite <- app_assoc. simpl. do 2 f_equal.
    apply filter_ext_in. intros a Ha. f_equal.
    unfold has_key. rewrite existsb_app. simpl.
    destruct (String.eqb_spec a k) as [->|_]; [contradiction|].
    now rewrite !Bool.orb_false_r.
Qed.

Lemma assigned_keys_NoDup event post : List.NoDup (assigned_keys event post).
Proof.
  destruct event, post; unfold assigned_keys; simpl;
    repeat (constructor; [simpl; intuition discriminate|]); constructor.
Qed.

Lemma keys_fill_defaults cid z post o :
  keys (fill_defaults cid z post o) =
  fold_left add_key
    (["cid"; "t"] ++ (if is_string (Some (resolved_t o)) "event" then ["el"] else [])
     ++ ["v"; "z"] ++ (if post then ["ds"; "aip"] else []))%list
    (keys o).
Proof.
  unfold fill_defaults, resolved_t.
  rewrite !(obj_get_set "cid"). lit_eqb. rewrite !obj_get_set_eq.
  set (o2 := obj_set "t" _ _).
  assert (Ho3 : keys (if is_string (Some (or_else (obj_get "t" o) (VStr "event"))) "event"
                         && negb (truthy (obj_get "el" o2))
                      then obj_set "el" (VStr "") o2 else o2) =
                if is_string (Some (or_else (obj_get "t" o) (VStr "event"))) "event"
                then add_key (keys o2) "el" else keys o2).
  { destruct (is_string _ "event"); [|reflexivity].
    destruct (truthy (obj_get "el" o2)) eqn:Hel; simpl.
    - rewrite add_key_present; [reflexivity|].
      rewrite has_key_keys. destruct (obj_get "el" o2); [reflexivity|discriminate].
    - apply keys_obj_set. }
  rewrite fold_left_app. simpl fold_left at 2.
  rewrite fold_left_app.
  destruct post; rewrite ?keys_obj_set, Ho3; unfold o2; rewrite !keys_obj_set;
    destruct (is_string _ "event"); reflexivity.
Qed.

Lemma keys_resolve_tid g o o1 :
  resolve_tid g o = Some o1 -> keys o1 = add_key (keys o) "tid".
Proof.
  unfold resolve_tid. destruct (truthy (obj_get "tid" o)) eqn:Ht.
  - intros [= <-]. rewrite add_key_present; [reflexivity|].
    rewrite has_key_keys. destruct (obj_get "tid" o); [reflexivity|discriminate].
  - destruct g as [id|]; [|discriminate].
    destruct (ToBoolean id); [|discriminate].
    intros [= <-]. apply keys_obj_set.
Qed.

(** Normalizing what is already normalized changes nothing but [z]. *)
Lemma fill_defaults_again cid z z2 post o k :
  k <> "z" ->
  obj_get k (fill_defaults cid z2 post (fill_defaults cid z post o)) =
  obj_get k (fill_defaults cid z post o).
Proof.
  intros Hk.
  pose proof (fill_defaults_get cid z post o) as Hget.
  remember (fill_defaults cid z post o) as F eqn:HF. clear HF.
  assert (Ht : obj_get "t" F = Some (resolved_t o)).
  { rewrite Hget. lit_eqb.
    now rewrite ?Bool.andb_false_r, ?Bool.andb_false_l. }
  assert (Htruthy : ToBoolean (resolved_t o) = true).
  { unfold resolved_t, or_else. destruct (obj_get "t" o) as [v|]; [|reflexivity].
    destruct (ToBoolean v) eqn:E; [exact E | reflexivity]. }
  assert (HtF : resolved_t F = resolved_t o).
  { unfold resolved_t at 1. rewrite Ht. simpl. now rewrite Htruthy. }
  assert (Hel : obj_get "el" F =
                if is_string (Some (resolved_t o)) "event"
                   && negb (truthy (obj_get "el" o))
                then Some (VStr "") else obj_get "el" o).
  { rewrite Hget. lit_eqb.
    now rewrite ?Bool.andb_false_r, ?Bool.andb_false_l, ?Bool.andb_true_l. }
  assert (Hds : obj_get "ds" F =
                if post then Some (or_else (obj_get "ds" o) (VStr "urlFetch"))
                else obj_get "ds" o).
  { rewrite Hget. lit_eqb.
    destruct post; now rewrite ?Bool.andb_false_r, ?Bool.andb_false_l. }
  assert (Hds2 : post = true ->
                 or_else (obj_get "ds" F) (VStr "urlFetch") =
                 or_else (obj_get "ds" o) (VStr "urlFetch")).
  { intros ->. rewrite Hds. unfold or_else at 1.
    destruct (obj_get "ds" o) as [v|]; simpl; [|reflexivity].
    destruct (ToBoolean v) eqn:E; simpl; [now rewrite E | reflexivity]. }
  assert (Hel2 : is_string (Some (resolved_t o)) "event" && negb (truthy (obj_get "el" F)) =
                 is_string (Some (resolved_t o)) "event" && negb (truthy (obj_get "el" o))).
  { rewrite Hel.
    destruct (is_string (Some (resolved_t o)) "event"); [|reflexivity].
    destruct (truthy (obj_get "el" o)) eqn:E; simpl; [now rewrite E | reflexivity]. }
  rewrite (fill_defaults_get cid z2 post F), HtF, Hel2.
  destruct (String.eqb_spec "z" k) as [<-|_]; [congruence|].
  rewrite (Hget k).
  destruct (String.eqb_spec "z" k) as [<-|_]; [congruence|].
  destruct post.
  - rewrite (Hds2 eq_refl), !Bool.andb_true_l.
    destruct (String.eqb "aip" k); [reflexivity|].
    destruct (String.eqb "ds" k); [reflexivity|].
    destruct (String.eqb "v" k); [reflexivity|].
    destruct (String.eqb "el" k && _); [reflexivity|].
    destruct (String.eqb "t" k); [reflexivity|].
    destruct (String.eqb "cid" k); reflexivity.
  - rewrite !Bool.andb_false_l.
    destruct (String.eqb "v" k); [reflexivity|].
    destruct (String.eqb "el" k && _); [reflexivity|].
    destruct (String.eqb "t" k); [reflexivity|].
    destruct (String.eqb "cid" k); reflexivity.
Qed.

Section Further.

Variable getUuid : nat -> string.
Variable random : nat -> double.

(** ** [getAnalyticsClientId] *)

(** What a call does to the cache and to the stores. *)
Lemma getAnalyticsClientId_post s w :
  exists id w',
    getAnalyticsClientId getUuid s w = Return id w' /\
    clientId w' = Some id /\
    (truthy_id (clientId w) = None ->
     stores w' !! (default UserProperties s, "clientId") = Some id) /\
    (forall key, key <> (default UserProperties s, "clientId") ->
                 stores w' !! key = stores w !! key) /\
    (truthy_id (stores w !! (default UserProperties s, "clientId")) <> None ->
     stores w' = stores w).
Proof.
  destruct (truthy_id (clientId w)) as [id|] eqn:Hc.
  - exists id, w. rewrite (getAnalyticsClientId_cached _ _ _ _ Hc).
    apply truthy_id_Some in Hc as [Hc _]. repeat split; auto; discriminate.
  - destruct (truthy_id (stores w !! (default UserProperties s, "clientId")))
      as [id|] eqn:Hs.
    + eexists id, _. rewrite (getAnalyticsClientId_stored _ _ _ _ Hc Hs).
      apply truthy_id_Some in Hs as [Hs _]. simpl.
      repeat split; auto.
    + eexists _, _. rewrite (getAnalyticsClientId_generated _ _ _ Hc Hs).
      simpl. repeat split.
      * intros _. apply lookup_insert_eq.
      * intros key Hkey. now apply lookup_insert_ne.
      * intros H. now contradiction H.
Qed.

(** X1. Every call returns, and the identifier it returns is the one left in
    the cache.  Unless it came from the cache, it is also what the store in
    use holds under [clientId] after the call.  No other entry of any store
    changes, and a store that held a non-empty identifier is not written at
    all. *)
Theorem client_id_cached_and_stored s w :
  let st := default UserProperties s in
  exists id w',
    getAnalyticsClientId getUuid s w = Return id w' /\
    clientId w' = Some id /\
    (truthy_id (clientId w) = None -> stores w' !! (st, "clientId") = Some id) /\
    (forall key, key <> (st, "clientId") -> stores w' !! key = stores w !! key) /\
    (truthy_id (stores w !! (st, "clientId")) <> None -> stores w' = stores w).
Proof.
  intros st. apply getAnalyticsClientId_post.
Qed.

(** X2. An empty string in the store does not count as an identifier: with
    nothing truthy in the cache, the call draws a new UUID and writes it
    over the empty string. *)
Theorem empty_stored_id_is_replaced s w :
  truthy_id (clientId w) = None ->
  stores w !! (default UserProperties s, "clientId") = Some "" ->
  exists w',
    getAnalyticsClientId getUuid s w = Return (getUuid (uuid_calls w)) w' /\
    stores w' !! (default UserProperties s, "clientId") =
      Some (getUuid (uuid_calls w)) /\
    uuid_calls w' = S (uuid_calls w) /\
    store_writes (trace w') = S (store_writes (trace w)).
Proof.
  intros Hc Hs. eexists. split.
  - apply getAnalyticsClientId_generated; [exact Hc | now rewrite Hs].
  - simpl. rewrite lookup_insert_eq. repeat split.
    unfold store_writes. rewrite !filter_app, !length_app. simpl. lia.
Qed.

(** The stores after a call, entry by entry. *)
Lemma getAnalyticsClientId_untouched s w st k :
  k <> "clientId" \/ truthy_id (stores w !! (st, "clientId")) <> None ->
  stores (final (getAnalyticsClientId getUuid s w)) !! (st, k) =
  stores w !! (st, k).
Proof.
  intros Hu.
  destruct (getAnalyticsClientId_post s w) as (id & w' & -> & _ & _ & Hne & Hsame).
  simpl.
  destruct (decide ((st, k) = (default UserProperties s, "clientId")))
    as [[= -> ->]|Hkey].
  - destruct Hu as [Hu|Hu]; [congruence|]. now rewrite Hsame.
  - now apply Hne.
Qed.

Lemma addRequired_untouched p s post w st k :
  k <> "clientId" \/ truthy_id (stores w !! (st, "clientId")) <> None ->
  stores (final (_addRequiredParameters getUuid random p s post w)) !! (st, k) =
  stores w !! (st, k).
Proof.
  intros Hu.
  destruct (addRequired_effects getUuid random p s post w)
    as [[(_ & -> & _) _]|(cid & w1 & Hcid & (_ & -> & _))]; [reflexivity|].
  pose proof (getAnalyticsClientId_untouched s w st k Hu) as H.
  now rewrite Hcid in H.
Qed.

Lemma run_untouched calls : forall w st k,
  k <> "clientId" \/ truthy_id (stores w !! (st, "clientId")) <> None ->
  stores (snd (run getUuid random calls w)) !! (st, k) = stores w !! (st, k).
Proof.
  induction calls as [|c calls IH]; intros w st k Hu; [reflexivity|].
  assert (Hnext : forall w',
    (forall k', k' <> "clientId" \/ truthy_id (stores w !! (st, "clientId")) <> None ->
                stores w' !! (st, k') = stores w !! (st, k')) ->
    stores (snd (run getUuid random calls w')) !! (st, k) = stores w !! (st, k)).
  { intros w' Hw'. rewrite IH.
    - now apply Hw'.
    - destruct Hu as [Hu|Hu]; [now left|right].
      rewrite Hw' by (now right). exact Hu. }
  destruct c as [s|p s|p s post]; simpl.
  - destruct (getAnalyticsClientId getUuid s w) as [id w'|e w'] eqn:Hcall; simpl;
      apply Hnext; intros k' Hk';
      pose proof (getAnalyticsClientId_untouched s w st k' Hk') as H;
      now rewrite Hcall in H.
  - rewrite generateAnalyticsTrackingUrl_final. apply Hnext.
    intros k' Hk'. now apply addRequired_untouched.
  - apply Hnext. intros k' Hk'. now apply addRequired_untouched.
Qed.

(** X3. Whatever calls a process makes, the library writes no key but
    [clientId], and it does not write [clientId] in a store that holds a
    non-empty identifier: such entries are after the calls what they were
    before. *)
Theorem stored_id_is_never_overwritten calls w st k :
  k <> "clientId" \/ truthy_id (stores w !! (st, "clientId")) <> None ->
  stores (snd (run getUuid random calls w)) !! (st, k) = stores w !! (st, k).
Proof.
  apply run_untouched.
Qed.

(** ** [_addRequiredParameters] *)

(** X4. The call succeeds exactly when a tracking ID can be found: a truthy
    [tid] among the parameters or a truthy [ANALYTICS_TRACKING_ID]. *)
Theorem normalize_succeeds_iff p s post w :
  (exists q w', _addRequiredParameters getUuid random p s post w = Return q w') <->
  truthy (obj_get "tid" (deref p w)) = true \/
  truthy (ANALYTICS_TRACKING_ID w) = true.
Proof.
  split.
  - intros (q & w' & H).
    apply addRequired_Return in H as (o1 & _ & _ & Ho1 & _).
    destruct (truthy (obj_get "tid" (deref p w))) eqn:Ht; [now left|right].
    destruct (truthy (ANALYTICS_TRACKING_ID w)) eqn:Hg; [reflexivity|].
    assert (resolve_tid (ANALYTICS_TRACKING_ID w) (deref p w) = None)
      by (apply resolve_tid_None; auto).
    congruence.
  - intros H. apply resolve_tid_Some in H as [o1 Ho1].
    now apply addRequired_succeeds with (o := o1).
Qed.

(** X5. Parameters under keys other than [tid], [cid], [t], [el], [v], [z],
    [ds] and [aip] go through unchanged: such a key is in the result with
    the caller's value, or absent if the caller did not set it. *)
Theorem normalize_passes_through p s post w q w' k :
  _addRequiredParameters getUuid random p s post w = Return q w' ->
  reserved k = false ->
  obj_get k (deref q w') = obj_get k (deref p w).
Proof.
  intros H Hk.
  apply addRequired_Return in H as (o1 & cid & w1 & Ho1 & _ & _ & _ & Hq & _).
  apply reserved_false in Hk as (E1 & E2 & E3 & E4 & E5 & E6 & E7 & E8).
  rewrite Hq, fill_defaults_get, (resolve_tid_get _ _ _ k Ho1).
  rewrite E1, E2, E3, E4, E5, E6, E7, E8.
  now rewrite !Bool.andb_false_r, !Bool.andb_false_l.
Qed.

(** X6. What the caller cannot set and what the caller can.  In the result
    [cid] is the identifier that the call left in the cache and [v] is
    ["1"], whatever the caller supplied under these keys; under HTTP POST
    [aip] is ["1"] likewise.  A truthy [el] of the caller is kept, and so is
    a truthy [ds] (under HTTP POST, where a default exists, and without). *)
Theorem normalize_overwrites p s post w q w' :
  _addRequiredParameters getUuid random p s post w = Return q w' ->
  let o := deref p w in
  let o' := deref q w' in
  (exists id, clientId w' = Some id /\ obj_get "cid" o' = Some (VStr id)) /\
  obj_get "v" o' = Some (VStr "1") /\
  (post = true -> obj_get "aip" o' = Some (VStr "1")) /\
  (truthy (obj_get "el" o) = true -> obj_get "el" o' = obj_get "el" o) /\
  (truthy (obj_get "ds" o) = true -> obj_get "ds" o' = obj_get "ds" o).
Proof.
  intros H o o'.
  apply addRequired_Return in H as (o1 & cid & w1 & Ho1 & Hcid & _ & _ & Hq & _ & He).
  subst o o'. rewrite Hq.
  destruct (getAnalyticsClientId_post s w) as (id & w1' & Hcall & Hcache & _).
  rewrite Hcid in Hcall. injection Hcall as <- <-.
  destruct He as (Hc & _).
  pose proof (resolve_tid_get _ _ _ "el" Ho1) as Hel.
  pose proof (resolve_tid_get _ _ _ "ds" Ho1) as Hds.
  rewrite Bool.andb_false_l in Hel, Hds.
  rewrite !fill_defaults_get. lit_eqb.
  rewrite ?Bool.andb_false_r, ?Bool.andb_false_l, ?Bool.andb_true_l,
    ?Bool.andb_true_r. cbv iota.
  rewrite Hel, Hds.
  split; [exists cid; split; [congruence | reflexivity]|].
  split; [reflexivity|]. split; [now intros ->|]. split.
  - intros ->. now rewrite Bool.andb_false_r.
  - intros Ht. destruct post; [|reflexivity].
    destruct (obj_get "ds" (deref p w)) as [v|]; [|discriminate].
    simpl in *. now rewrite Ht.
Qed.

(** X7. The order of the keys.  In the result the caller's keys come first,
    in the caller's order, and after them the keys that the call had to add,
    in the order [tid], [cid], [t], [el] (event hits only), [v], [z], [ds],
    [aip] (HTTP POST only).  If no key occurs twice in the parameters, none
    occurs twice in the result. *)
Theorem normalize_key_order p s post w q w' :
  _addRequiredParameters getUuid random p s post w = Return q w' ->
  let o := deref p w in
  let o' := deref q w' in
  let event := is_string (Some (resolved_t o)) "event" in
  keys o' =
    (keys o ++ List.filter (fun k => negb (has_key k (keys o)))
                           (assigned_keys event post))%list /\
  (List.NoDup (keys o) -> List.NoDup (keys o')).
Proof.
  intros H o o' event.
  apply addRequired_Return in H as (o1 & cid & w1 & Ho1 & _ & _ & _ & Hq & _).
  assert (Hkeys : keys o' =
    (keys o ++ List.filter (fun k => negb (has_key k (keys o)))
                           (assigned_keys event post))%list).
  { subst o'. rewrite Hq, keys_fill_defaults, (keys_resolve_tid _ _ _ Ho1).
    assert (Ht : resolved_t o1 = resolved_t o).
    { unfold resolved_t. now rewrite (resolve_tid_get _ _ _ "t" Ho1). }
    rewrite Ht. fold event.
    rewrite <- (fold_add_key _ _ (assigned_keys_NoDup event post)).
    reflexivity. }
  split; [exact Hkeys|].
  intros Hnd. rewrite Hkeys. apply List.NoDup_app.
  - exact Hnd.
  - apply List.NoDup_filter, assigned_keys_NoDup.
  - intros a Ha Hin. apply filter_In in Hin as [_ Hin].
    apply has_key_In in Ha. rewrite Ha in Hin. discriminate.
Qed.

(** The identifier that a call returns is truthy in the cache afterwards,
    provided the platform's UUID is well formed. *)
Lemma getAnalyticsClientId_settled s w id w1 :
  is_uuid (getUuid (uuid_calls w)) = true ->
  getAnalyticsClientId getUuid s w = Return id w1 ->
  truthy_id (clientId w1) = Some id.
Proof.
  intros Hu Hcall.
  destruct (truthy_id (clientId w)) as [id'|] eqn:Hc.
  - rewrite (getAnalyticsClientId_cached _ _ _ _ Hc) in Hcall.
    now injection Hcall as <- <-.
  - destruct (getAnalyticsClientId_settles getUuid s w Hc Hu)
      as (id' & w1' & t & Hret & Hset & _).
    rewrite Hcall in Hret. now injection Hret as <- <-.
Qed.

(** X8. Normalizing twice.  When the result of a successful call is
    normalized again, with any store and the same way of sending, the second
    call succeeds, reads and writes no store, and returns an object that
    differs from the first result in [z] at most. *)
Theorem normalize_again p s s' post w q w' :
  is_uuid (getUuid (uuid_calls w)) = true ->
  _addRequiredParameters getUuid random p s post w = Return q w' ->
  exists q2 w2,
    _addRequiredParameters getUuid random q s' post w' = Return q2 w2 /\
    (forall k, k <> "z" -> obj_get k (deref q2 w2) = obj_get k (deref q w')) /\
    same_effects w2 w'.
Proof.
  intros Hu H.
  apply addRequired_Return in H as (o1 & cid & w1 & Ho1 & Hcid & _ & _ & Hq & _ & He).
  pose proof (getAnalyticsClientId_settled _ _ _ _ Hu Hcid) as Hset.
  destruct He as (Hc & Hs & Ht). rewrite <- Hc in Hset.
  pose proof (getAnalyticsClientId_cached getUuid s' w' cid Hset) as Hcid2.
  assert (Htid : truthy (obj_get "tid" (deref q w')) = true).
  { rewrite Hq, fill_defaults_get. lit_eqb.
    rewrite ?Bool.andb_false_r, ?Bool.andb_false_l. cbv iota.
    apply (resolve_tid_truthy _ _ _ Ho1). }
  assert (Ho2 : resolve_tid (ANALYTICS_TRACKING_ID w') (deref q w') = Some (deref q w')).
  { unfold resolve_tid. now rewrite Htid. }
  rewrite (addRequired_unfold _ _ _ _ _ _ _ _ Hcid2), Ho2.
  eexists _, _. split; [reflexivity|]. split.
  - intros k Hk. unfold deref at 1. simpl heap.
    rewrite lookup_total_insert_eq, Hq. now apply fill_defaults_again.
  - unfold same_effects. simpl. auto.
Qed.

(** X15. What a successful call does besides building its result: to the
    cache, the stores and the access log exactly what one call of
    [getAnalyticsClientId] with the same store does, and nothing else but
    drawing one random number; the configured tracking ID is not changed. *)
Theorem normalize_effects p s post w q w' :
  _addRequiredParameters getUuid random p s post w = Return q w' ->
  exists id w1,
    getAnalyticsClientId getUuid s w = Return id w1 /\
    same_effects w' w1 /\
    uuid_calls w' = uuid_calls w1 /\
    random_calls w' = S (random_calls w) /\
    ANALYTICS_TRACKING_ID w' = ANALYTICS_TRACKING_ID w.
Proof.
  intros H.
  destruct (getAnalyticsClientId_frame getUuid s w) as (cid & w1 & Hcid & _ & Hg & _).
  rewrite (addRequired_unfold _ _ _ _ _ _ _ _ Hcid) in H.
  destruct (resolve_tid _ _) as [o1|]; [|discriminate].
  injection H as <- <-. exists cid, w1.
  unfold same_effects; simpl. auto 10.
Qed.

(** ** [generateAnalyticsTrackingUrl] *)

Lemma obj_get_In k v o : obj_get k o = Some v -> In (k, v) o.
Proof.
  induction o as [|[k' v'] o IH]; simpl; [discriminate|].
  destruct (String.eqb_spec k k') as [->|_].
  - intros [= ->]. now left.
  - intros H. right. now apply IH.
Qed.

Lemma percent_encode_unescaped s0 :
  forallb uri_unescaped (list_ascii_of_string s0) = true -> percent_encode s0 = s0.
Proof.
  induction s0 as [|c s0 IH]; simpl; [reflexivity|].
  intros H. apply Bool.andb_true_iff in H as [Hc Hs].
  rewrite Hc, IH by exact Hs. reflexivity.
Qed.

(** X16. The items of the URL.  A successful call returns the endpoint, a
    question mark and a list of items joined by [&amp;], one item per key of
    the normalized parameters.  Among the items are [v=1] and the item of
    [cid] for the identifier that the call left in the cache; for an event
    hit whose caller gave no truthy [el], the item [el] stands alone. *)
Theorem tracking_url_items p s w url w' :
  generateAnalyticsTrackingUrl getUuid random p s w = Return url w' ->
  exists q items id,
    _addRequiredParameters getUuid random p s false w = Return q w' /\
    url = ENDPOINT +:+ "?" +:+ join "&amp;" items /\
    length items = length (keys (deref q w')) /\
    In "v=1" items /\
    clientId w' = Some id /\ In (url_param "cid" (VStr id)) items /\
    (resolved_t (deref p w) = VStr "event" ->
     truthy (obj_get "el" (deref p w)) = false -> In "el" items).
Proof.
  rewrite generateAnalyticsTrackingUrl_run.
  destruct (_addRequiredParameters getUuid random p s false w) as [q w1|e w1] eqn:H;
    [|discriminate].
  destruct (forallb _ _); [|discriminate].
  intros [= <- <-].
  set (item := fun kv : string * value => url_param (fst kv) (snd kv)).
  assert (Hitem : forall k v, obj_get k (deref q w1) = Some v ->
                              In (url_param k v) (map item (deref q w1))).
  { intros k v Hkv. apply obj_get_In in Hkv.
    apply (in_map item) in Hkv. exact Hkv. }
  apply addRequired_Return in H as Hret.
  destruct Hret as (o1 & cid & w2 & Ho1 & Hcid & _ & _ & Hq & _ & (Hc & _)).
  destruct (getAnalyticsClientId_post s w) as (id & w2' & Hpost & Hcache & _).
  rewrite Hcid in Hpost. injection Hpost as <- <-.
  exists q, (map item (deref q w1)), cid.
  split; [reflexivity|]. split; [reflexivity|].
  split; [unfold keys; now rewrite !length_map|].
  assert (Ht1 : resolved_t o1 = resolved_t (deref p w)).
  { unfold resolved_t. now rewrite (resolve_tid_get _ _ _ "t" Ho1). }
  pose proof (resolve_tid_get _ _ _ "el" Ho1) as Hel.
  rewrite Bool.andb_false_l in Hel.
  split; [|split; [congruence|split]].
  - apply (Hitem "v" (VStr "1")). rewrite Hq, fill_defaults_get. now lit_eqb.
  - assert (Hc1 : obj_get "cid" (deref q w1) = Some (VStr cid)).
    { rewrite Hq, fill_defaults_get. lit_eqb.
      now rewrite ?Bool.andb_false_r, ?Bool.andb_false_l. }
    now apply Hitem in Hc1.
  - intros Hev Hfalsy.
    apply (Hitem "el" (VStr "")).
    rewrite Hq, fill_defaults_get. lit_eqb.
    rewrite ?Bool.andb_false_l, ?Bool.andb_true_l. cbv iota.
    now rewrite Ht1, Hev, Hel, Hfalsy.
Qed.

(** X17. Every character that [encodeURI] leaves alone reaches the URL as
    it is: a non-empty string value made of letters, digits and the
    characters [; / ? : @ & = + $ , - _ . ! ~ * ' ( ) #] is written after
    the key and an equals sign without any change.  So an ampersand or an
    equals sign inside a value is not escaped. *)
Theorem url_param_keeps_uri_characters k v :
  v <> "" ->
  forallb uri_unescaped (list_ascii_of_string v) = true ->
  url_param k (VStr v) = k +:+ "=" +:+ v.
Proof.
  intros Hv Hs. unfold url_param.
  destruct (decide (VStr v = VStr "")) as [[= ->]|_]; [congruence|].
  simpl ToString. now rewrite (percent_encode_unescaped _ Hs).
Qed.

(** X9. Building a URL has the effects of normalizing without HTTP POST and
    no other: in every case it leaves the world that normalizing leaves,
    with the caller's object as it was.  When normalizing fails it fails
    with the same error; its only other failure is the [URIError] of
    [encodeURI], raised after normalizing has succeeded, on a value that
    holds a lone surrogate. *)
Theorem tracking_url_effects p s w :
  final (generateAnalyticsTrackingUrl getUuid random p s w) =
    final (_addRequiredParameters getUuid random p s false w) /\
  (forall e w',
     _addRequiredParameters getUuid random p s false w = Throw e w' ->
     generateAnalyticsTrackingUrl getUuid random p s w = Throw e w') /\
  (forall e w',
     generateAnalyticsTrackingUrl getUuid random p s w = Throw e w' ->
     _addRequiredParameters getUuid random p s false w = Throw e w' \/
     (e = URIError /\
      exists q,
        _addRequiredParameters getUuid random p s false w = Return q w' /\
        Exists (fun kv => well_formed (ToString (snd kv)) = false) (deref q w'))) /\
  (forall o, heap w !! p = Some o ->
     heap (final (generateAnalyticsTrackingUrl getUuid random p s w)) !! p = Some o).
Proof.
  assert (Hfinal : final (generateAnalyticsTrackingUrl getUuid random p s w) =
                   final (_addRequiredParameters getUuid random p s false w)).
  { rewrite generateAnalyticsTrackingUrl_run.
    destruct (_addRequiredParameters getUuid random p s false w) as [q w1|e1 w1];
      [|reflexivity].
    now destruct (forallb _ _). }
  split; [exact Hfinal|]. split; [|split].
  - intros e w' H. now rewrite generateAnalyticsTrackingUrl_run, H.
  - intros e w'. rewrite generateAnalyticsTrackingUrl_run.
    destruct (_addRequiredParameters getUuid random p s false w) as [q w1|e1 w1].
    + destruct (forallb _ _) eqn:Hwf; [discriminate|].
      intros [= <- <-]. right. split; [reflexivity|].
      exists q. split; [reflexivity|].
      now apply (forallb_Exists (fun kv => well_formed (ToString (snd kv)))).
    + intros [= <- <-]. now left.
  - intros o Ho. rewrite Hfinal.
    assert (Hne : p <> fresh (dom (heap w))).
    { intros ->. pose proof (is_fresh (dom (heap w))) as Hf.
      apply not_elem_of_dom in Hf. congruence. }
    destruct (_addRequiredParameters getUuid random p s false w) as [q w1|e1 w1] eqn:H;
      simpl.
    + apply addRequired_Return in H as (o1 & cid & w2 & _ & _ & -> & -> & _).
      now rewrite lookup_insert_ne.
    + apply addRequired_Throw in H as (_ & _ & ->). simpl.
      now rewrite lookup_insert_ne.
Qed.

End Further.

(** ** [sendAnalyticsEvent] *)

Lemma or_else_truthy x d : ToBoolean d = true -> ToBoolean (or_else x d) = true.
Proof.
  intros Hd. unfold or_else. destruct x as [v|]; [|exact Hd].
  destruct (ToBoolean v) eqn:E; [exact E | exact Hd].
Qed.

Section SendingProperties.

Variable getUuid : nat -> string.
Variable random : nat -> double.
Variable fetch_throws : nat -> option string.

(** X10. Without a tracking ID nothing is sent: the call throws the
    tracking-ID-required error, makes no request, and neither reads nor
    writes a store. *)
Theorem send_requires_tracking_id p s n w :
  truthy (obj_get "tid" (deref p w)) = false ->
  truthy (ANALYTICS_TRACKING_ID w) = false ->
  exists w',
    sendAnalyticsEvent getUuid random fetch_throws p s n w =
      (Throw (Error TRACKING_ID_REQUIRED) w', n) /\
    trace w' = trace w /\ stores w' = stores w /\ clientId w' = clientId w.
Proof.
  intros Ht Hg. unfold sendAnalyticsEvent.
  rewrite addRequired_fails by (apply resolve_tid_None; auto).
  eexists. split; [reflexivity|]. simpl. auto.
Qed.

(** X11. With a tracking ID exactly one request is made, through
    [ErrorHandler.urlFetchWithExpBackOff] when [this['ErrorHandler']] is
    truthy and through [UrlFetchApp.fetch] otherwise: a POST to the
    collection endpoint whose payload is the normalized parameters, with [v]
    and [aip] equal to ["1"], the cached identifier as [cid] and truthy
    [tid], [t] and [ds].  The call
    returns if the fetcher returns and throws what the fetcher throws; in
    both cases the world is the one that normalizing left, so an identifier
    written to the store stays written when the request fails.  The caller's
    object is not changed. *)
Theorem send_posts_once p s n w :
  truthy (obj_get "tid" (deref p w)) = true \/
  truthy (ANALYTICS_TRACKING_ID w) = true ->
  exists q w' r,
    _addRequiredParameters getUuid random p s true w = Return q w' /\
    snd (sendAnalyticsEvent getUuid random fetch_throws p s n w) =
      mkNetwork (this_ErrorHandler n) (requests n ++ [r]) /\
    fst (sendAnalyticsEvent getUuid random fetch_throws p s n w) =
      match fetch_throws (length (requests n)) with
      | Some message => Throw (Error message) w'
      | None => Return tt w'
      end /\
    fetcher_of r =
      (if this_ErrorHandler n then ErrorHandler_urlFetchWithExpBackOff
       else UrlFetchApp_fetch) /\
    url r = ENDPOINT /\ method r = "post" /\ payload r = deref q w' /\
    obj_get "v" (payload r) = Some (VStr "1") /\
    obj_get "aip" (payload r) = Some (VStr "1") /\
    (exists id, clientId w' = Some id /\
                obj_get "cid" (payload r) = Some (VStr id)) /\
    (forall k, In k ["tid"; "t"; "ds"] -> truthy (obj_get k (payload r)) = true) /\
    (forall o, heap w !! p = Some o -> heap w' !! p = Some o).
Proof.
  intros H. apply resolve_tid_Some in H as [o1 Ho1].
  destruct (addRequired_succeeds getUuid random p s true w o1 Ho1) as (q & w' & Hcall).
  unfold sendAnalyticsEvent. rewrite Hcall.
  exists q, w'. eexists. split; [reflexivity|].
  split; [now destruct (fetch_throws (length (requests n)))|].
  split; [now destruct (fetch_throws (length (requests n)))|].
  simpl.
  apply addRequired_Return in Hcall
    as (o1' & cid & w1 & Ho1' & Hcid & -> & Hheap & Hq & _ & (Hc & _)).
  rewrite Ho1 in Ho1'. injection Ho1' as <-.
  destruct (getAnalyticsClientId_post getUuid s w) as (id & w1' & Hpost & Hcache & _).
  rewrite Hcid in Hpost. injection Hpost as <- <-.
  rewrite Hq.
  do 4 (split; [reflexivity|]).
  split; [rewrite fill_defaults_get; lit_eqb; reflexivity|].
  split; [rewrite fill_defaults_get; lit_eqb; reflexivity|].
  split.
  { exists cid. split; [congruence|]. rewrite fill_defaults_get. lit_eqb.
    now rewrite ?Bool.andb_false_r, ?Bool.andb_false_l. }
  split.
  - intros k Hk. simpl in Hk. rewrite fill_defaults_get.
    destruct Hk as [<-|[<-|[<-|[]]]]; lit_eqb;
      rewrite ?Bool.andb_false_r, ?Bool.andb_false_l, ?Bool.andb_true_l; cbv iota.
    + apply (resolve_tid_truthy _ _ _ Ho1).
    + simpl. unfold resolved_t. now apply or_else_truthy.
    + simpl. now apply or_else_truthy.
  - intros o Ho. rewrite Hheap. rewrite lookup_insert_ne; [exact Ho|].
    intros <-. pose proof (is_fresh (dom (heap w))) as Hf.
    apply not_elem_of_dom in Hf. congruence.
Qed.

End SendingProperties.

(** ** The older copy *)

Lemma length_append s1 s2 :
  String.length (s1 +:+ s2) = (String.length s1 + String.length s2)%nat.
Proof.
  induction s1 as [|c s1 IH]; [reflexivity|].
  change (String c s1 +:+ s2) with (String c (s1 +:+ s2)). simpl. now rewrite IH.
Qed.

(** X14. The two copies write the same item of the query string for a value
    exactly when the value is truthy or the empty string; for [0], [false]
    and [null] the older copy writes the key alone and the published copy
    [key=value]. *)
Theorem url_param_agreement k v :
  Draft.url_param k v = url_param k v <->
  ToBoolean v = true \/ v = VStr "".
Proof.
  unfold Draft.url_param, url_param.
  destruct (decide (v = VStr "")) as [->|Hv].
  - simpl. rewrite append_empty_r. tauto.
  - destruct (ToBoolean v) eqn:Hb; simpl.
    + tauto.
    + split; [|intros [?|?]; congruence].
      intros H. apply (f_equal String.length) in H.
      rewrite !length_append in H. simpl in H. lia.
Qed.

(** ** The further properties at work on the example process *)

Lemma client_id_cached_and_stored_witness :
  exists id w',
    getAnalyticsClientId example_getUuid None example_returning = Return id w' /\
    stores w' = stores example_returning.
Proof.
  destruct (client_id_cached_and_stored example_getUuid None example_returning)
    as (id & w' & H1 & _ & _ & _ & H5).
  exists id, w'. split; [exact H1|].
  apply H5. vm_compute. discriminate.
Defined.

Lemma empty_stored_id_is_replaced_witness :
  exists w',
    getAnalyticsClientId example_getUuid None example_blank =
      Return "0f8fad5b-d9cb-469f-a165-70867728950e" w' /\
    stores w' !! (UserProperties, "clientId") =
      Some "0f8fad5b-d9cb-469f-a165-70867728950e" /\
    uuid_calls w' = 1%nat /\
    store_writes (trace w') = 1%nat.
Proof.
  exact (empty_stored_id_is_replaced example_getUuid None example_blank
           eq_refl eq_refl).
Defined.

Lemma stored_id_is_never_overwritten_witness :
  stores (snd (run example_getUuid example_random example_calls example_returning))
    !! (UserProperties, "clientId") =
  stores example_returning !! (UserProperties, "clientId").
Proof.
  apply stored_id_is_never_overwritten.
  right. vm_compute. discriminate.
Defined.

Lemma normalize_succeeds_iff_witness :
  exists q w',
    _addRequiredParameters example_getUuid example_random 0%nat None false
      example_start = Return q w'.
Proof.
  apply (proj2 (normalize_succeeds_iff example_getUuid example_random 0%nat None
                  false example_start)).
  right. reflexivity.
Defined.

Lemma normalize_passes_through_witness :
  obj_get "ec" (deref 1%nat (final (example_result true))) =
  obj_get "ec" (deref 0%nat example_start).
Proof.
  assert (H : _addRequiredParameters example_getUuid example_random 0%nat None
                true example_start = Return 1%nat (final (example_result true)))
    by (vm_compute; reflexivity).
  exact (normalize_passes_through _ _ _ _ _ _ _ _ "ec" H eq_refl).
Defined.

Lemma normalize_overwrites_witness :
  obj_get "v" (deref 1%nat (final (example_result true))) = Some (VStr "1") /\
  obj_get "aip" (deref 1%nat (final (example_result true))) = Some (VStr "1").
Proof.
  assert (H : _addRequiredParameters example_getUuid example_random 0%nat None
                true example_start = Return 1%nat (final (example_result true)))
    by (vm_compute; reflexivity).
  destruct (normalize_overwrites _ _ _ _ _ _ _ _ H) as (_ & Hv & Haip & _).
  split; [exact Hv | exact (Haip eq_refl)].
Defined.

Lemma normalize_key_order_witness :
  keys (deref 1%nat (final (example_result true))) =
  ["ec"; "ea"; "tid"; "cid"; "t"; "el"; "v"; "z"; "ds"; "aip"].
Proof.
  assert (H : _addRequiredParameters example_getUuid example_random 0%nat None
                true example_start = Return 1%nat (final (example_result true)))
    by (vm_compute; reflexivity).
  rewrite (proj1 (normalize_key_order _ _ _ _ _ _ _ _ H)).
  reflexivity.
Defined.

Lemma normalize_again_witness :
  exists q2 w2,
    _addRequiredParameters example_getUuid example_random 1%nat
      (Some ScriptProperties) true (final (example_result true)) = Return q2 w2 /\
    (forall k, k <> "z" ->
       obj_get k (deref q2 w2) =
       obj_get k (deref 1%nat (final (example_result true)))) /\
    same_effects w2 (final (example_result true)).
Proof.
  assert (H : _addRequiredParameters example_getUuid example_random 0%nat None
                true example_start = Return 1%nat (final (example_result true)))
    by (vm_compute; reflexivity).
  exact (normalize_again example_getUuid example_random 0%nat None
           (Some ScriptProperties) true example_start 1%nat
           (final (example_result true)) eq_refl H).
Defined.

Lemma normalize_effects_witness :
  exists id w1,
    getAnalyticsClientId example_getUuid None example_start = Return id w1 /\
    same_effects (final (example_result false)) w1 /\
    uuid_calls (final (example_result false)) = uuid_calls w1 /\
    random_calls (final (example_result false)) = 1%nat /\
    ANALYTICS_TRACKING_ID (final (example_result false)) =
      Some (VStr "UA-12345-1").
Proof.
  assert (H : _addRequiredParameters example_getUuid example_random 0%nat None
                false example_start = Return 1%nat (final (example_result false)))
    by (vm_compute; reflexivity).
  exact (normalize_effects _ _ _ _ _ _ _ _ H).
Defined.

Lemma tracking_url_effects_witness :
  heap (final (generateAnalyticsTrackingUrl example_getUuid example_random
                 0%nat None example_malformed)) !! 0%nat =
  Some [("dt", VStr ("a" +:+ lone_surrogate +:+ "b"))].
Proof.
  apply (proj2 (proj2 (proj2 (tracking_url_effects example_getUuid example_random
                                0%nat None example_malformed)))).
  reflexivity.
Defined.

Lemma send_requires_tracking_id_witness :
  exists w',
    sendAnalyticsEvent example_getUuid example_random example_fetch 0%nat None
      example_network (example_world example_hit None) =
      (Throw (Error TRACKING_ID_REQUIRED) w', example_network) /\
    trace w' = [] /\ stores w' = ∅ /\ clientId w' = None.
Proof.
  exact (send_requires_tracking_id example_getUuid example_random example_fetch
           0%nat None example_network (example_world example_hit None)
           eq_refl eq_refl).
Defined.

Lemma send_posts_once_witness :
  exists r,
    requests (snd (sendAnalyticsEvent example_getUuid example_random example_fetch
                     0%nat None example_network example_start)) = [r] /\
    fetcher_of r = UrlFetchApp_fetch /\ method r = "post" /\
    obj_get "aip" (payload r) = Some (VStr "1").
Proof.
  destruct (send_posts_once example_getUuid example_random example_fetch
              0%nat None example_network example_start (or_intror eq_refl))
    as (q & w' & r & _ & Hn & _ & Hf & _ & Hm & _ & _ & Haip & _).
  exists r. rewrite Hn. auto.
Defined.

Lemma url_param_agreement_witness :
  Draft.url_param "el" (VStr "") = url_param "el" (VStr "") /\
  Draft.url_param "ev" (VNum 0) <> url_param "ev" (VNum 0).
Proof.
  split.
  - apply (proj2 (url_param_agreement "el" (VStr ""))). right. reflexivity.
  - intros H. apply (proj1 (url_param_agreement "ev" (VNum 0))) in H.
    destruct H; discriminate.
Defined.

Lemma tracking_url_items_witness :
  exists q items id,
    _addRequiredParameters example_getUuid example_random 0%nat None false
      example_start = Return q (final (example_result false)) /\
    length items = length (keys (deref q (final (example_result false)))) /\
    In "v=1" items /\
    clientId (final (example_result false)) = Some id /\
    In (url_param "cid" (VStr id)) items.
Proof.
  assert (H : generateAnalyticsTrackingUrl example_getUuid example_random 0%nat
                None example_start =
              Return "https://www.google-analytics.com/collect?ec=Installed&amp;ea=en-US&amp;tid=UA-12345-1&amp;cid=0f8fad5b-d9cb-469f-a165-70867728950e&amp;t=event&amp;el&amp;v=1&amp;z=66666666"
                (final (example_result false)))
    by (vm_compute; reflexivity).
  destruct (tracking_url_items _ _ _ _ _ _ _ H)
    as (q & items & id & H1 & _ & H3 & H4 & H5 & H6 & _).
  exists q, items, id. auto.
Defined.

Lemma url_param_keeps_uri_characters_witness :
  url_param "el" (VStr "a&b=c") = "el=a&b=c".
Proof.
  exact (url_param_keeps_uri_characters "el" "a&b=c"
           ltac:(discriminate) eq_refl).
Defined.
